(** * erdpy smart-contract encoding layer: a shallow embedding

    This development embeds [erdpy/contracts.py] (argument encoding,
    code metadata, contract-address derivation, the deploy / execute /
    upgrade transaction builders and the query decoder) together with
    the Python built-ins and library calls it relies on, and proves the
    properties of the encoding layer over that embedding.

    Text is modelled by [string]; every built-in below is the ASCII
    fragment of its Python counterpart (code points above 127 would
    need the Unicode tables, which are not modelled).  Integers are
    unbounded; their conversion to and from decimal text is refused
    beyond 4300 digits, as CPython refuses it. *)

From Stdlib Require Import ZArith NArith List Bool Lia.
From Stdlib.Strings Require Import String Ascii Byte.
Import ListNotations.

Open Scope string_scope.
Open Scope Z_scope.

(* ================================================================= *)
(** ** Exceptions and the error monad *)

(** The exceptions that can leave the functions of [contracts.py]. *)
Inductive exn : Type :=
| UnknownArgumentFormat (argument : string)
| ValueError
| TypeError
| OverflowError
| AttributeError
| EmptyAddressError.

Inductive result (A : Type) : Type :=
| Ok (a : A)
| Raise (e : exn).

Arguments Ok {A} a.
Arguments Raise {A} e.

Definition bind {A B : Type} (m : result A) (k : A -> result B) : result B :=
  match m with
  | Ok a => k a
  | Raise e => Raise e
  end.

Notation "x <- m ;; k" := (bind m (fun x => k))
  (at level 61, m at next level, right associativity).

(** A comprehension / loop body that may raise, run left to right. *)
Fixpoint mapM {A B : Type} (f : A -> result B) (l : list A) : result (list B) :=
  match l with
  | [] => Ok []
  | a :: l' => b <- f a ;; bs <- mapM f l' ;; Ok (b :: bs)
  end.

(* ================================================================= *)
(** ** Python text built-ins (ASCII fragment) *)

Module Py.

Definition code (c : ascii) : Z := Z.of_N (N_of_ascii c).

Definition chr (z : Z) : ascii := ascii_of_N (Z.to_N z).

Fixpoint all_chars (p : ascii -> bool) (s : string) : bool :=
  match s with
  | EmptyString => true
  | String c r => p c && all_chars p r
  end.

Fixpoint map_chars (f : ascii -> ascii) (s : string) : string :=
  match s with
  | EmptyString => EmptyString
  | String c r => String (f c) (map_chars f r)
  end.

Definition is_ascii_char (c : ascii) : bool := code c <? 128.

(** [s.isascii()] *)
Definition isascii (s : string) : bool := all_chars is_ascii_char s.

(** [len(s)] *)
Definition len (s : string) : nat := String.length s.

(** [s[n:]] *)
Fixpoint drop (n : nat) (s : string) : string :=
  match n, s with
  | O, _ => s
  | S n', String _ r => drop n' r
  | S _, EmptyString => EmptyString
  end.

(** [s.startswith(p)] *)
Definition startswith (s p : string) : bool := String.prefix p s.

Definition upper_char (c : ascii) : ascii :=
  if (97 <=? code c) && (code c <=? 122) then chr (code c - 32) else c.

(** [s.upper()] *)
Definition upper (s : string) : string := map_chars upper_char s.

Definition is_decimal_char (c : ascii) : bool :=
  (48 <=? code c) && (code c <=? 57).

(** [s.isnumeric()]: at least one character, all of them numeric. *)
Definition isnumeric (s : string) : bool :=
  match s with
  | EmptyString => false
  | _ => all_chars is_decimal_char s
  end.

(** Digit [d] (0..35) as the lowercase character [str] and [hex] emit. *)
Definition digit_char (d : Z) : ascii :=
  if d <? 10 then chr (48 + d) else chr (87 + d).

(** Most significant digit first; [fuel] bounds the number of digits. *)
Fixpoint to_base (base : Z) (fuel : nat) (n : Z) (acc : string) : string :=
  match fuel with
  | O => acc
  | S fuel' =>
      let acc' := String (digit_char (n mod base)) acc in
      if n <? base then acc' else to_base base fuel' (n / base) acc'
  end.

Definition digits (base : Z) (n : Z) : string :=
  to_base base (S (Z.to_nat (Z.log2 n))) n EmptyString.

(** [sys.int_max_str_digits]: the longest decimal text an integer is
    converted to or from. *)
Definition max_str_digits : nat := 4300.

(** [str(n)] for an [int]: [ValueError] when [n] has more decimal
    digits than the limit. *)
Definition str (n : Z) : result string :=
  let text := digits 10 (Z.abs n) in
  if Nat.ltb max_str_digits (String.length text) then Raise ValueError
  else Ok (if n <? 0 then String "-" text else text).

(** [hex(n)] for an [int]. *)
Definition hex (n : Z) : string :=
  if n <? 0 then ("-0x" ++ digits 16 (- n))%string
  else ("0x" ++ digits 16 n)%string.

(** [Py_ISSPACE]: space, and the controls 9..13. *)
Definition is_space (c : ascii) : bool :=
  (code c =? 32) || ((9 <=? code c) && (code c <=? 13)).

Fixpoint lstrip (s : string) : string :=
  match s with
  | String c r => if is_space c then lstrip r else s
  | EmptyString => s
  end.

(** [_PyLong_DigitValue]: 37 marks a character that is no digit. *)
Definition digit_value (c : ascii) : Z :=
  let n := code c in
  if (48 <=? n) && (n <=? 57) then n - 48
  else if (97 <=? n) && (n <=? 122) then n - 87
  else if (65 <=? n) && (n <=? 90) then n - 55
  else 37.

Definition is_underscore (c : ascii) : bool := Ascii.eqb c "_".

(** The digit loop of [int(s, base)]: digits and single underscores
    between them are consumed; a doubled or trailing underscore is a
    syntax error.  Returns the value read, the number of digits and
    the unread rest. *)
Fixpoint scan_digits (base : Z) (s : string) (prev : ascii) (acc : Z) (nd : nat)
  : option (Z * nat * string) :=
  match s with
  | String c r =>
      if is_underscore c then
        if is_underscore prev then None else scan_digits base r c acc nd
      else if digit_value c <? base then
        scan_digits base r c (acc * base + digit_value c) (S nd)
      else if is_underscore prev then None else Some (acc, nd, s)
  | EmptyString =>
      if is_underscore prev then None else Some (acc, nd, s)
  end.

Definition has_base_prefix (base : Z) (s : string) : bool :=
  match s with
  | String c0 (String c1 _) =>
      (base =? 16) && Ascii.eqb c0 "0" && (Ascii.eqb c1 "x" || Ascii.eqb c1 "X")
  | _ => false
  end.

(** An optional [+] or [-] in front of the digits. *)
Definition split_sign (s : string) : Z * string :=
  match s with
  | String c r =>
      if Ascii.eqb c "+" then (1, r)
      else if Ascii.eqb c "-" then (-1, r)
      else (1, s)
  | EmptyString => (1, s)
  end.

(** For base 16 an optional [0x] / [0X], after which one underscore
    is allowed. *)
Definition skip_base_prefix (base : Z) (s : string) : string :=
  if has_base_prefix base s then
    match drop 2 s with
    | String c r => if is_underscore c then r else String c r
    | EmptyString => EmptyString
    end
  else s.

Definition starts_with_underscore (s : string) : bool :=
  match s with
  | String c _ => is_underscore c
  | EmptyString => false
  end.

(** The digit limit holds for the bases that are no power of two. *)
Definition has_digit_limit (base : Z) : bool :=
  negb (Z.land base (base - 1) =? 0).

(** [int(s, base)] for base 10 and 16: optional surrounding white space,
    an optional sign, for base 16 an optional prefix, then at least one
    digit and, in base 10, no more digits than the limit.  [None] is
    [ValueError]. *)
Definition int (s : string) (base : Z) : option Z :=
  let '(sign, s2) := split_sign (lstrip s) in
  let s3 := skip_base_prefix base s2 in
  if starts_with_underscore s3 then None
  else
    match scan_digits base s3 "000" 0 O with
    | None => None
    | Some (v, nd, rest) =>
        match nd, lstrip rest with
        | S _, EmptyString =>
            if has_digit_limit base && Nat.ltb max_str_digits nd then None
            else Some (sign * v)
        | _, _ => None
        end
    end.

End Py.

(* ================================================================= *)
(** ** Byte strings *)

Module Bytes.

Definition of_Z (z : Z) : byte :=
  match Byte.of_N (Z.to_N (z mod 256)) with
  | Some b => b
  | None => x00
  end.

Definition to_Z (b : byte) : Z := Z.of_N (Byte.to_N b).

(** [b[lo:hi]] and [b[lo:]] *)
Definition slice {A : Type} (lo hi : nat) (l : list A) : list A :=
  firstn (hi - lo) (skipn lo l).

Definition slice_from {A : Type} (lo : nat) (l : list A) : list A :=
  skipn lo l.

(** [b.hex()]: two lowercase digits per byte. *)
Fixpoint hex (bs : list byte) : string :=
  match bs with
  | [] => EmptyString
  | b :: r =>
      String (Py.digit_char (to_Z b / 16))
        (String (Py.digit_char (to_Z b mod 16)) (hex r))
  end.

Fixpoint little_endian (length : nat) (n : Z) : list byte :=
  match length with
  | O => []
  | S l => of_Z (n mod 256) :: little_endian l (n / 256)
  end.

(** [n.to_bytes(length, byteorder="little")]: [OverflowError] when [n]
    is negative or does not fit. *)
Definition int_to_bytes_little (n : Z) (length : nat) : result (list byte) :=
  if (n <? 0) || (256 ^ Z.of_nat length <=? n) then Raise OverflowError
  else Ok (little_endian length n).

(** The unsigned big-endian value of a byte string. *)
Definition big_endian_value (bs : list byte) : Z :=
  fold_left (fun acc b => acc * 256 + to_Z b) bs 0.

End Bytes.

(* ================================================================= *)
(** ** [base64.b64decode] *)

Module Base64.

(** The decoding table: [None] for a character outside the alphabet. *)
Definition value (c : ascii) : option Z :=
  let n := Py.code c in
  if (65 <=? n) && (n <=? 90) then Some (n - 65)
  else if (97 <=? n) && (n <=? 122) then Some (n - 71)
  else if (48 <=? n) && (n <=? 57) then Some (n + 4)
  else if n =? 43 then Some 62
  else if n =? 47 then Some 63
  else None.

(** The loop of [binascii.a2b_base64] in its default, non-strict mode:
    characters outside the alphabet are skipped, a complete pad
    sequence ends the input, and data that stops inside a quad is an
    error ([None]). *)
Fixpoint a2b_loop (s : string) (quad_pos : nat) (leftchar pads : Z)
  (out : list byte) : option (list byte) :=
  match s with
  | EmptyString =>
      match quad_pos with
      | O => Some (rev out)
      | _ => None
      end
  | String c r =>
      if Ascii.eqb c "=" then
        if Nat.leb 2 quad_pos then
          if 4 <=? Z.of_nat quad_pos + (pads + 1) then Some (rev out)
          else a2b_loop r quad_pos leftchar (pads + 1) out
        else a2b_loop r quad_pos leftchar pads out
      else
        match value c with
        | None => a2b_loop r quad_pos leftchar pads out
        | Some v =>
            match quad_pos with
            | 0%nat => a2b_loop r 1 v 0 out
            | 1%nat =>
                a2b_loop r 2 (Z.land v 15) 0
                  (Bytes.of_Z (Z.lor (Z.shiftl leftchar 2) (Z.shiftr v 4)) :: out)
            | 2%nat =>
                a2b_loop r 3 (Z.land v 3) 0
                  (Bytes.of_Z (Z.lor (Z.shiftl leftchar 4) (Z.shiftr v 2)) :: out)
            | _ =>
                a2b_loop r 0 0 0
                  (Bytes.of_Z (Z.lor (Z.shiftl leftchar 6) v) :: out)
            end
        end
  end.

(** [base64.b64decode(s)] on text: the text must be ASCII, then
    [a2b_base64].  [None] stands for the [ValueError] /
    [binascii.Error] raised otherwise. *)
Definition b64decode (s : string) : option (list byte) :=
  if Py.isascii s then a2b_loop s 0 0 0 [] else None.

End Base64.

(* ================================================================= *)
(** ** Keccak-256, as [keccak.new(digest_bits=256).update(m).digest()] *)

Module Keccak.

Definition w64 : Z := 2 ^ 64.

Definition rotl64 (x : Z) (n : Z) : Z :=
  Z.lor (Z.shiftl x n mod w64) (Z.shiftr x (64 - n)).

(** A state is 25 lanes; lane [(x, y)] sits at index [x + 5 * y]. *)
Definition lane (s : list Z) (x y : nat) : Z :=
  nth (x mod 5 + 5 * (y mod 5)) s 0.

Definition rotation_offsets : list Z :=
  [ 0;  1; 62; 28; 27;
   36; 44;  6; 55; 20;
    3; 10; 43; 25; 39;
   41; 45; 15; 21;  8;
   18;  2; 61; 56; 14].

Definition round_constants : list Z :=
  [0x0000000000000001; 0x0000000000008082; 0x800000000000808A;
   0x8000000080008000; 0x000000000000808B; 0x0000000080000001;
   0x8000000080008081; 0x8000000000008009; 0x000000000000008A;
   0x0000000000000088; 0x0000000080008009; 0x000000008000000A;
   0x000000008000808B; 0x800000000000008B; 0x8000000000008089;
   0x8000000000008003; 0x8000000000008002; 0x8000000000000080;
   0x000000000000800A; 0x800000008000000A; 0x8000000080008081;
   0x8000000000008080; 0x0000000080000001; 0x8000000080008008].

Definition column_parity (s : list Z) (x : nat) : Z :=
  Z.lxor (lane s x 0) (Z.lxor (lane s x 1) (Z.lxor (lane s x 2)
    (Z.lxor (lane s x 3) (lane s x 4)))).

Definition theta (s : list Z) : list Z :=
  map (fun i =>
         let x := (i mod 5)%nat in
         let y := (i / 5)%nat in
         Z.lxor (lane s x y)
           (Z.lxor (column_parity s (x + 4))
                   (rotl64 (column_parity s (x + 1)) 1)))
      (seq 0 25).

(** rho and pi together: the lane at [(x, y)] is rotated and moved to
    [(y, 2x + 3y)]; read here from the destination [(X, Y)]. *)
Definition rho_pi (s : list Z) : list Z :=
  map (fun i =>
         let X := (i mod 5)%nat in
         let Y := (i / 5)%nat in
         let x := ((X + 3 * Y) mod 5)%nat in
         let y := X in
         rotl64 (lane s x y) (nth (x + 5 * y) rotation_offsets 0))
      (seq 0 25).

Definition chi (s : list Z) : list Z :=
  map (fun i =>
         let x := (i mod 5)%nat in
         let y := (i / 5)%nat in
         Z.lxor (lane s x y)
           (Z.land (Z.lxor (lane s (x + 1) y) (w64 - 1)) (lane s (x + 2) y)))
      (seq 0 25).

Definition iota (rc : Z) (s : list Z) : list Z :=
  match s with
  | [] => []
  | a :: r => Z.lxor a rc :: r
  end.

Definition round (s : list Z) (rc : Z) : list Z :=
  iota rc (chi (rho_pi (theta s))).

Definition keccak_f (s : list Z) : list Z :=
  fold_left round round_constants s.

(** Rate of Keccak-256 in bytes. *)
Definition rate : nat := 136.

Definition pad (m : list Z) : list Z :=
  let q := (rate - (List.length m mod rate))%nat in
  match q with
  | 1%nat => (m ++ [0x81])%list
  | _ => (m ++ [0x01] ++ repeat 0 (q - 2) ++ [0x80])%list
  end.

Definition lane_of_bytes (bs : list Z) : Z :=
  fold_right (fun b acc => b + 256 * acc) 0 bs.

Fixpoint lanes_of_block (n : nat) (block : list Z) : list Z :=
  match n with
  | O => []
  | S n' => lane_of_bytes (firstn 8 block) :: lanes_of_block n' (skipn 8 block)
  end.

Fixpoint xor_lanes (s b : list Z) : list Z :=
  match s, b with
  | a :: s', c :: b' => Z.lxor a c :: xor_lanes s' b'
  | _, _ => s
  end.

Fixpoint absorb (fuel : nat) (s : list Z) (m : list Z) : list Z :=
  match fuel, m with
  | S fuel', _ :: _ =>
      absorb fuel'
        (keccak_f (xor_lanes s (lanes_of_block 17 (firstn rate m))))
        (skipn rate m)
  | _, _ => s
  end.

Definition squeeze_byte (s : list Z) (i : nat) : byte :=
  Bytes.of_Z (Z.shiftr (nth (i / 8) s 0) (8 * Z.of_nat (i mod 8))).

Definition keccak256 (m : list byte) : list byte :=
  let padded := pad (map Bytes.to_Z m) in
  let s := absorb (List.length padded) (repeat 0 25) padded in
  map (squeeze_byte s) (seq 0 32).

End Keccak.

(* ================================================================= *)
(** ** Collaborators of [contracts.py] *)

(** Modelled from the spec: [erdpy.accounts.Address] is not part of the
    sources at hand.  The spec (section 3) describes it as a 32-byte
    value with its raw public-key bytes and a text form; [Address(None)]
    is the empty placeholder and [Address.zero()] the network zero
    address. *)
Module Address.

Record t : Type := mk { pubkey : list byte }.

Definition empty : t := mk [].

Definition zero : t := mk (repeat x00 32).

End Address.

(** Modelled from the spec: [erdpy.accounts.Account], of which
    [contracts.py] reads [address] and [nonce]. *)
Module Account.

Record t : Type := mk { address : Address.t; nonce : Z }.

End Account.

(** Modelled from the spec: [erdpy.transactions.Transaction] is not part
    of the sources at hand.  The record has the fields of the spec's
    transaction intent (section 3), which are the ones [contracts.py]
    assigns, and the signature that [tx.sign] stores. *)
Module Transaction.

Record t : Type := mk {
  nonce : Z;
  value : string;
  sender : string;
  receiver : string;
  gasPrice : Z;
  gasLimit : Z;
  data : string;
  chainID : string;
  version : Z;
  signature : string
}.

Definition set_signature (tx : t) (sig : string) : t :=
  mk (nonce tx) (value tx) (sender tx) (receiver tx) (gasPrice tx)
     (gasLimit tx) (data tx) (chainID tx) (version tx) sig.

End Transaction.

(** What [contracts.py] imports and does not define: the two constants,
    the text form of the key of an address (what [IAddress.bech32]
    returns for an address that has a key) and the signer
    ([IAccount.sign_transaction], which may fail). *)
Class Environment : Type := {
  VM_TYPE_WASM_VM : string;
  DEFAULT_GAS_PRICE : Z;
  bech32 : Address.t -> string;
  sign_transaction : Account.t -> Transaction.t -> result string
}.

(* ================================================================= *)
(** ** Python values crossing the proxy interface *)

Record QueryResult : Type := mkQueryResult {
  base64 : string;
  hex : string;
  number : Z
}.

(** JSON-like values, plus the [QueryResult] objects [query] returns. *)
#[warnings="-register-all"]
Inductive pyval : Type :=
| PyNone
| PyStr (s : string)
| PyInt (n : Z)
| PyList (l : list pyval)
| PyDict (d : list (string * pyval))
| PyQueryResult (q : QueryResult).

(** Truth value, as [not data] and [x or y] test it. *)
Definition truthy (v : pyval) : bool :=
  match v with
  | PyNone => false
  | PyStr EmptyString => false
  | PyStr _ => true
  | PyInt n => negb (n =? 0)
  | PyList [] => false
  | PyList _ => true
  | PyDict [] => false
  | PyDict _ => true
  | PyQueryResult _ => true
  end.

Fixpoint lookup (key : string) (d : list (string * pyval)) : option pyval :=
  match d with
  | [] => None
  | (k, v) :: d' => if String.eqb k key then Some v else lookup key d'
  end.

(** [v.get(key, default)]; only a dict has [get]. *)
Definition get (v : pyval) (key : string) (default : pyval) : result pyval :=
  match v with
  | PyDict d =>
      match lookup key d with
      | Some x => Ok x
      | None => Ok default
      end
  | _ => Raise AttributeError
  end.

Fixpoint chars (s : string) : list pyval :=
  match s with
  | EmptyString => []
  | String c r => PyStr (String c EmptyString) :: chars r
  end.

(** What [for data in v] walks over. *)
Definition iterate (v : pyval) : result (list pyval) :=
  match v with
  | PyList l => Ok l
  | PyStr s => Ok (chars s)
  | PyDict d => Ok (map (fun kv => PyStr (fst kv)) d)
  | _ => Raise TypeError
  end.

(** [IElrondProxy]: the one method [contracts.py] calls. *)
Record IElrondProxy : Type := {
  query_contract : pyval -> result pyval
}.

(** A record of the [contracts] logger. *)
Inductive log_record : Type :=
| Warn_cannot_interpret (data : pyval).

(* ================================================================= *)
(** ** [erdpy/contracts.py] *)

Definition HEX_PREFIX : string := "0X".

(** An argument is [Any] in the source; it is only ever read through
    [str], so the integers and the texts are modelled. *)
Inductive argument : Type :=
| ArgInt (n : Z)
| ArgStr (s : string).

Definition str_of_argument (a : argument) : result string :=
  match a with
  | ArgInt n => Py.str n
  | ArgStr s => Ok s
  end.

Definition ensure_even_length (string : String.string) : String.string :=
  if Nat.eqb (Py.len string mod 2) 1 then String "0" string else string.

Definition _prepare_hexadecimal (argument : string) : result string :=
  let argument := Py.drop (Py.len HEX_PREFIX) argument in
  let argument := ensure_even_length argument in
  match Py.int argument 16 with
  | Some _ => Ok argument
  | None => Raise (UnknownArgumentFormat argument)
  end.

Definition _prepare_decimal (argument : string) : result string :=
  if negb (Py.isnumeric argument) then Raise (UnknownArgumentFormat argument)
  else
    match Py.int argument 10 with
    | None => Raise ValueError
    | Some as_number =>
        let as_hexstring := Py.drop (Py.len HEX_PREFIX) (Py.hex as_number) in
        let as_hexstring := ensure_even_length as_hexstring in
        Ok as_hexstring
    end.

Definition _prepare_argument (argument : argument) : result string :=
  text <- str_of_argument argument ;;
  let as_string := Py.upper text in
  if Py.startswith as_string HEX_PREFIX then _prepare_hexadecimal as_string
  else _prepare_decimal as_string.

Record CodeMetadata : Type := mkCodeMetadata {
  upgradeable : bool;
  payable : bool
}.

(** [CodeMetadata()] *)
Definition CodeMetadata_default : CodeMetadata := mkCodeMetadata true false.

Definition to_hex (self : CodeMetadata) : string :=
  ((if upgradeable self then "01" else "00") ++
   (if payable self then "02" else "00"))%string.

Record SmartContract : Type := mkSmartContract {
  address : Address.t;
  bytecode : option string;
  metadata : CodeMetadata;
  owner : option Account.t;
  caller : option Account.t
}.

(** [SmartContract(address, bytecode, metadata)] *)
Definition SmartContract_init (address : option Address.t)
  (bytecode : option string) (metadata : option CodeMetadata) : SmartContract :=
  mkSmartContract
    (match address with Some a => a | None => Address.empty end)
    bytecode
    (match metadata with Some m => m | None => CodeMetadata_default end)
    None None.

Definition set_owner (self : SmartContract) (o : Account.t) : SmartContract :=
  mkSmartContract (address self) (bytecode self) (metadata self) (Some o) (caller self).

Definition set_caller (self : SmartContract) (c : Account.t) : SmartContract :=
  mkSmartContract (address self) (bytecode self) (metadata self) (owner self) (Some c).

Definition set_address (self : SmartContract) (a : Address.t) : SmartContract :=
  mkSmartContract a (bytecode self) (metadata self) (owner self) (caller self).

(** How an f-string renders [self.bytecode]. *)
Definition format_bytecode (b : option string) : string :=
  match b with
  | Some s => s
  | None => "None"
  end.

(** The loop [for arg in arguments: tx_data += f"@{_prepare_argument(arg)}"]. *)
Fixpoint append_arguments (tx_data : string) (arguments : list argument)
  : result string :=
  match arguments with
  | [] => Ok tx_data
  | arg :: rest =>
      prepared <- _prepare_argument arg ;;
      append_arguments (tx_data ++ "@" ++ prepared)%string rest
  end.

(** The bytes [compute_address] builds for an owner key and nonce. *)
Definition compute_address_bytes (owner_bytes : list byte) (owner_nonce : Z)
  : result (list byte) :=
  nonce_bytes <- Bytes.int_to_bytes_little owner_nonce 8 ;;
  let bytes_to_hash := (owner_bytes ++ nonce_bytes)%list in
  let address := Keccak.keccak256 bytes_to_hash in
  Ok (repeat x00 8 ++ [x05; x00] ++ Bytes.slice 10 30 address
        ++ Bytes.slice_from 30 owner_bytes)%list.

(** Methods of [SmartContract] read and assign attributes of [self]
    and may raise; an assignment made before the exception stays. *)
Definition method (A : Type) : Type := SmartContract -> SmartContract * result A.

Definition ret {A : Type} (a : A) : method A := fun self => (self, Ok a).

Definition lift {A : Type} (r : result A) : method A := fun self => (self, r).

Definition read {A : Type} (f : SmartContract -> result A) : method A :=
  fun self => (self, f self).

Definition assign (f : SmartContract -> SmartContract) : method unit :=
  fun self => (f self, Ok tt).

Definition bindM {A B : Type} (m : method A) (k : A -> method B) : method B :=
  fun self =>
    match m self with
    | (self', Ok a) => k a self'
    | (self', Raise e) => (self', Raise e)
    end.

Notation "x <~ m ;; k" := (bindM m (fun x => k))
  (at level 61, m at next level, right associativity).
Notation "m ;;; k" := (bindM m (fun _ => k))
  (at level 61, right associativity).

(** [int(x)] on an optional integer: [int(None)] is a [TypeError]. *)
Definition int_of (x : option Z) : result Z :=
  match x with
  | Some n => Ok n
  | None => Raise TypeError
  end.

(** [x or default] on an optional integer: [None] and [0] are falsy. *)
Definition or_int (x : option Z) (default : Z) : Z :=
  match x with
  | None => default
  | Some n => if n =? 0 then default else n
  end.

(** [arguments or []] *)
Definition or_nil {A : Type} (x : option (list A)) : list A :=
  match x with
  | Some l => l
  | None => []
  end.

Section WithEnvironment.

Context {env : Environment}.

Definition prepare_deploy_transaction_data (self : SmartContract)
  (arguments : list argument) : result string :=
  let tx_data :=
    (format_bytecode (bytecode self) ++ "@" ++ VM_TYPE_WASM_VM ++ "@"
       ++ to_hex (metadata self))%string in
  append_arguments tx_data arguments.

Definition prepare_execute_transaction_data (self : SmartContract)
  (function : string) (arguments : list argument) : result string :=
  let tx_data := function in
  append_arguments tx_data arguments.

Definition prepare_upgrade_transaction_data (self : SmartContract)
  (arguments : list argument) : result string :=
  let tx_data :=
    ("upgradeContract@" ++ format_bytecode (bytecode self) ++ "@"
       ++ to_hex (metadata self))%string in
  append_arguments tx_data arguments.

(** [self.owner] does not exist before [deploy] or [upgrade] set it. *)
Definition compute_address : method unit :=
  o <~ read (fun self =>
               match owner self with
               | Some o => Ok o
               | None => Raise AttributeError
               end) ;;
  address <~ lift (compute_address_bytes
                     (Address.pubkey (Account.address o)) (Account.nonce o)) ;;
  assign (fun self => set_address self (Address.mk address)).

(** [a.bech32()]: the empty address has no text form; for any other
    address it is the text form of its key. *)
Definition Address_bech32 (a : Address.t) : result string :=
  match Address.pubkey a with
  | [] => Raise EmptyAddressError
  | _ => Ok (bech32 a)
  end.

Definition deploy (owner : Account.t) (arguments : option (list argument))
  (gas_price gas_limit value : option Z) (chain : string) (version : Z)
  : method Transaction.t :=
  assign (fun self => set_owner self owner) ;;;
  compute_address ;;;
  let arguments := or_nil arguments in
  gas_price <~ lift (int_of gas_price) ;;
  gas_limit <~ lift (int_of gas_limit) ;;
  let value := or_int value 0 in
  value_text <~ lift (Py.str value) ;;
  sender <~ lift (Address_bech32 (Account.address owner)) ;;
  receiver <~ lift (Address_bech32 Address.zero) ;;
  data <~ read (fun self => prepare_deploy_transaction_data self arguments) ;;
  let tx :=
    Transaction.mk (Account.nonce owner) value_text sender receiver
      gas_price gas_limit data chain version "" in
  sig <~ lift (sign_transaction owner tx) ;;
  ret (Transaction.set_signature tx sig).

Definition execute (caller : Account.t) (function : string)
  (arguments : option (list argument))
  (gas_price gas_limit value : option Z) (chain : string) (version : Z)
  : method Transaction.t :=
  assign (fun self => set_caller self caller) ;;;
  let arguments := or_nil arguments in
  gas_price <~ lift (int_of gas_price) ;;
  gas_limit <~ lift (int_of gas_limit) ;;
  let value := or_int value 0 in
  value_text <~ lift (Py.str value) ;;
  sender <~ lift (Address_bech32 (Account.address caller)) ;;
  receiver <~ read (fun self => Address_bech32 (address self)) ;;
  data <~ read (fun self =>
                  prepare_execute_transaction_data self function arguments) ;;
  let tx :=
    Transaction.mk (Account.nonce caller) value_text sender receiver
      gas_price gas_limit data chain version "" in
  sig <~ lift (sign_transaction caller tx) ;;
  ret (Transaction.set_signature tx sig).

Definition upgrade (owner : Account.t) (arguments : option (list argument))
  (gas_price gas_limit value : option Z) (chain : string) (version : Z)
  : method Transaction.t :=
  assign (fun self => set_owner self owner) ;;;
  let arguments := or_nil arguments in
  let gas_price := or_int gas_price DEFAULT_GAS_PRICE in
  gas_limit <~ lift (int_of gas_limit) ;;
  let value := or_int value 0 in
  value_text <~ lift (Py.str value) ;;
  sender <~ lift (Address_bech32 (Account.address owner)) ;;
  receiver <~ read (fun self => Address_bech32 (address self)) ;;
  data <~ read (fun self => prepare_upgrade_transaction_data self arguments) ;;
  let tx :=
    Transaction.mk (Account.nonce owner) value_text sender receiver
      gas_price gas_limit data chain version "" in
  sig <~ lift (sign_transaction owner tx) ;;
  ret (Transaction.set_signature tx sig).

(** The payload of [query_detailed], built key by key. *)
Definition query_payload (self : SmartContract) (function : string)
  (prepared_arguments : list string) (value : Z) (caller : option Address.t)
  : result pyval :=
  scAddress <- Address_bech32 (address self) ;;
  value_text <- Py.str value ;;
  let payload :=
    [("scAddress", PyStr scAddress);
     ("funcName", PyStr function);
     ("args", PyList (map PyStr prepared_arguments));
     ("value", PyStr value_text)] in
  match caller with
  | Some c =>
      caller_text <- Address_bech32 c ;;
      Ok (PyDict (payload ++ [("caller", PyStr caller_text)])%list)
  | None => Ok (PyDict payload)
  end.

Definition query_detailed (self : SmartContract) (proxy : IElrondProxy)
  (function : string) (arguments : option (list argument)) (value : Z)
  (caller : option Address.t) : result pyval :=
  let arguments := or_nil arguments in
  prepared_arguments <- mapM _prepare_argument arguments ;;
  payload <- query_payload self function prepared_arguments value caller ;;
  response <- query_contract proxy payload ;;
  get response "data" (PyDict []).

(** The value returned together with what was logged. *)
Definition _interpret_return_data (data : pyval) : pyval * list log_record :=
  if negb (truthy data) then (data, [])
  else
    match data with
    | PyStr s =>
        match Base64.b64decode s with
        | Some as_bytes =>
            let as_hex := Bytes.hex as_bytes in
            match Py.int as_hex 16 with
            | Some as_number =>
                (PyQueryResult (mkQueryResult s as_hex as_number), [])
            | None => (PyNone, [Warn_cannot_interpret data])
            end
        | None => (PyNone, [Warn_cannot_interpret data])
        end
    | _ => (PyNone, [Warn_cannot_interpret data])
    end.

Definition query (self : SmartContract) (proxy : IElrondProxy)
  (function : string) (arguments : option (list argument)) (value : Z)
  (caller : option Address.t) : result (list pyval) * list log_record :=
  let return_data :=
    response_data <- query_detailed self proxy function arguments value caller ;;
    first <- get response_data "returnData" (PyList []) ;;
    if truthy first then Ok first
    else get response_data "ReturnData" (PyList []) in
  match (rd <- return_data ;; iterate rd) with
  | Raise e => (Raise e, [])
  | Ok entries =>
      let interpreted := map _interpret_return_data entries in
      (Ok (map fst interpreted), List.concat (map snd interpreted))
  end.

End WithEnvironment.

(* ================================================================= *)
(** ** Reference values *)

(** A concrete environment to run the model in: the marker of the WASM
    virtual machine and the default gas price as erdpy configures them,
    the hexadecimal form of the key standing in for the text form of an
    address, and a signer that always answers. *)
Definition reference_env : Environment :=
  {| VM_TYPE_WASM_VM := "0500";
     DEFAULT_GAS_PRICE := 1000000000;
     bech32 := fun a => Bytes.hex (Address.pubkey a);
     sign_transaction := fun _ _ => Ok "signature" |}.

(** The value of a string of digits read most significant digit first,
    continuing from [acc]. *)
Fixpoint fold_digits (base : Z) (s : string) (acc : Z) : Z :=
  match s with
  | EmptyString => acc
  | String c r => fold_digits base r (acc * base + Py.digit_value c)
  end.

Definition is_digit_of (base : Z) (c : ascii) : bool :=
  Py.digit_value c <? base.

(** The spec's [decodeHex]: a non-empty string of hexadecimal digits
    (either case) read as an unsigned base-16 integer. *)
Definition hex_digit (c : ascii) : option Z :=
  let n := Py.code c in
  if (48 <=? n) && (n <=? 57) then Some (n - 48)
  else if (97 <=? n) && (n <=? 102) then Some (n - 87)
  else if (65 <=? n) && (n <=? 70) then Some (n - 55)
  else None.

Fixpoint decodeHex_from (s : string) (acc : Z) : option Z :=
  match s with
  | EmptyString => Some acc
  | String c r =>
      match hex_digit c with
      | Some d => decodeHex_from r (16 * acc + d)
      | None => None
      end
  end.

Definition decodeHex (s : string) : option Z :=
  match s with
  | EmptyString => None
  | _ => decodeHex_from s 0
  end.

(** A valid hex string: at least one character, all hexadecimal digits. *)
Definition is_hex_string (s : string) : bool :=
  match s with
  | EmptyString => false
  | _ => Py.all_chars (is_digit_of 16) s
  end.

Definition is_lowercase_char (c : ascii) : bool :=
  (97 <=? Py.code c) && (Py.code c <=? 122).

Definition no_lowercase (s : string) : bool :=
  Py.all_chars (fun c => negb (is_lowercase_char c)) s.


(** The fields that [deploy], [execute] and [upgrade] fill in the same
    way from the account and the call's parameters. *)
Definition common_fields {env : Environment} (account : Account.t)
  (gas_limit value : option Z) (chain : string) (version : Z)
  (tx : Transaction.t) : Prop :=
  Transaction.nonce tx = Account.nonce account /\
  Py.str (or_int value 0) = Ok (Transaction.value tx) /\
  Transaction.sender tx = bech32 (Account.address account) /\
  gas_limit = Some (Transaction.gasLimit tx) /\
  Transaction.chainID tx = chain /\
  Transaction.version tx = version.

(** Sample objects on which the model is run: a contract before its
    deployment, which has no address yet, and a deployed one. *)
Definition sample_contract : SmartContract :=
  SmartContract_init None (Some "AABB") (Some (mkCodeMetadata true false)).

Definition sample_deployed : SmartContract :=
  SmartContract_init
    (Some (Address.mk (repeat x00 8 ++ [x05; x00] ++ repeat xaa 20
                         ++ [x02; x03])%list))
    (Some "AABB") (Some (mkCodeMetadata true false)).

Definition sample_owner : Account.t :=
  Account.mk (Address.mk (repeat x01 30 ++ [x02; x03])%list) 7.

(** A proxy that answers every query with the given return data. *)
Definition sample_proxy (return_data : list pyval) : IElrondProxy :=
  {| query_contract := fun _ =>
       Ok (PyDict [("data", PyDict [("returnData", PyList return_data)])]) |}.

(** The encoded arguments as they follow the head of a data string:
    each one after an [@]. *)
Fixpoint at_joined (encoded : list string) : string :=
  match encoded with
  | [] => EmptyString
  | e :: rest => ("@" ++ e ++ at_joined rest)%string
  end.

(** The characters that [int(s, 16)] lets through: blanks, a sign, an
    underscore, the letter of the prefix and the hexadecimal digits. *)
Definition is_int16_char (c : ascii) : bool :=
  Py.is_space c || Ascii.eqb c "+" || Ascii.eqb c "-" || Py.is_underscore c
  || Ascii.eqb c "x" || Ascii.eqb c "X" || is_digit_of 16 c.

Definition is_not_separator (c : ascii) : bool := negb (Ascii.eqb c "@").

(** An argument whose text is ASCII: any integer, or a text of ASCII
    characters. *)
Definition is_ascii_argument (a : argument) : bool :=
  match a with
  | ArgInt _ => true
  | ArgStr s => Py.isascii s
  end.

(** The hexadecimal digits as [bytes.hex] and [hex] write them. *)
Definition is_lower_hex_char (c : ascii) : bool :=
  Py.is_decimal_char c || ((97 <=? Py.code c) && (Py.code c <=? 102)).

(** An entry that base64-decodes to at least one byte. *)
Definition decodes_to_bytes (e : pyval) : bool :=
  match e with
  | PyStr s =>
      match Base64.b64decode s with
      | Some (_ :: _) => true
      | _ => false
      end
  | _ => false
  end.

(** An entry that is not empty and yet is not interpreted. *)
Definition uninterpreted (e : pyval) : bool :=
  truthy e && negb (decodes_to_bytes e).

(* ================================================================= *)
(** ** [projects/project_rust.py]: the Cargo manifest *)

Module Cargo.

(** What subscripting a Python value can raise. *)
Inductive error : Type :=
| KeyError (key : pyval)
| IndexError
| NotSubscriptable.

(** [v[key]] for a text key: only a dict answers; a list or a text
    wants an integer index and the other values have no items
    ([TypeError], here [NotSubscriptable]). *)
Definition getitem (v : pyval) (key : string) : error + pyval :=
  match v with
  | PyDict d =>
      match lookup key d with
      | Some x => inr x
      | None => inl (KeyError (PyStr key))
      end
  | _ => inl NotSubscriptable
  end.

(** [v[0]] *)
Definition getitem0 (v : pyval) : error + pyval :=
  match v with
  | PyList (x :: _) => inr x
  | PyList [] => inl IndexError
  | PyStr (String c _) => inr (PyStr (String c EmptyString))
  | PyStr EmptyString => inl IndexError
  | PyDict _ => inl (KeyError (PyInt 0))
  | _ => inl NotSubscriptable
  end.

(** The dict after [d[key] = value]: an existing key keeps its place,
    a new key goes to the end. *)
Fixpoint update (key : string) (value : pyval) (d : list (string * pyval))
  : list (string * pyval) :=
  match d with
  | [] => [(key, value)]
  | (k, v) :: d' =>
      if String.eqb k key then (k, value) :: d'
      else (k, v) :: update key value d'
  end.

(** [v[key] = value] for a text key: only a dict accepts it. *)
Definition setitem (v : pyval) (key : string) (value : pyval) : error + pyval :=
  match v with
  | PyDict d => inr (PyDict (update key value d))
  | _ => inl NotSubscriptable
  end.

Record CargoFile : Type := mkCargoFile {
  path : string;
  data : pyval
}.

(** [errors.BuildError], with its message. *)
Inductive BuildError : Type :=
| mkBuildError (message : string).

(** [CargoFile(path)], over [utils.read_toml_file] ([None] when it
    raises): whatever the reading raises becomes a [BuildError]. *)
Definition CargoFile_init (read_toml_file : string -> option pyval)
  (path : string) : BuildError + CargoFile :=
  match read_toml_file path with
  | Some data => inr (mkCargoFile path data)
  | None => inl (mkBuildError "Can't read cargo file.")
  end.

(** The getter of [package_name]: [self.data["package"]["name"]]. *)
Definition package_name (self : CargoFile) : error + pyval :=
  match getitem (data self) "package" with
  | inr package => getitem package "name"
  | inl e => inl e
  end.

(** The setter of [package_name]: [self.data["package"]["name"] = value].
    The table found under ["package"] is changed in place, so the
    manifest holds the changed table under the same key. *)
Definition set_package_name (self : CargoFile) (value : pyval)
  : error + CargoFile :=
  match getitem (data self) "package" with
  | inr package =>
      match setitem package "name" value with
      | inr package' =>
          match setitem (data self) "package" package' with
          | inr data' => inr (mkCargoFile (path self) data')
          | inl e => inl e
          end
      | inl e => inl e
      end
  | inl e => inl e
  end.

(** The getter of [bin_name]: [self.data["bin"][0]["name"]]. *)
Definition bin_name (self : CargoFile) : error + pyval :=
  match getitem (data self) "bin" with
  | inr bin =>
      match getitem0 bin with
      | inr first => getitem first "name"
      | inl e => inl e
      end
  | inl e => inl e
  end.

(** The setter of [bin_name]: [self.data["bin"][0]["name"] = value].
    The first table of the array is changed in place; the first item
    of a text is a fresh text and takes no assignment. *)
Definition set_bin_name (self : CargoFile) (value : pyval)
  : error + CargoFile :=
  match getitem (data self) "bin" with
  | inr bin =>
      match getitem0 bin with
      | inr first =>
          match setitem first "name" value with
          | inr first' =>
              match bin with
              | PyList (_ :: rest) =>
                  match setitem (data self) "bin" (PyList (first' :: rest)) with
                  | inr data' => inr (mkCargoFile (path self) data')
                  | inl e => inl e
                  end
              | _ => inl NotSubscriptable
              end
          | inl e => inl e
          end
      | inl e => inl e
      end
  | inl e => inl e
  end.

End Cargo.

(* ================================================================= *)
(** ** [erdpy/projects/core.py]: finding the projects *)

Module Projects.

Section WithFileSystem.

(** Paths, the project objects and the exceptions of the collaborators
    are kept abstract; [core.py] only passes them on. *)
Variables (path project exception : Type).

Inductive error : Type :=
| NotSupportedProject (directory : string)
| Collaborator (e : exception).

(** What [core.py] imports: the directory guard ([Some] when it
    raises), the four source detectors, the four project classes
    (their constructors may raise), the listing of sub-folders, and
    [str] and [/] on paths. *)
Variable guards_is_directory : path -> option exception.
Variables is_source_clang is_source_cpp is_source_sol is_source_rust
  : path -> bool.
Variables ProjectClang ProjectCpp ProjectSol ProjectRust
  : path -> exception + project.
Variable get_subfolders : path -> exception + list string.
Variable str_of_path : path -> string.
Variable join : path -> string -> path.

Definition construct (r : exception + project) : error + project :=
  match r with
  | inr p => inr p
  | inl e => inl (Collaborator e)
  end.

Definition load_project (directory : path) : error + project :=
  match guards_is_directory directory with
  | Some e => inl (Collaborator e)
  | None =>
      if is_source_clang directory then construct (ProjectClang directory)
      else if is_source_cpp directory then construct (ProjectCpp directory)
      else if is_source_sol directory then construct (ProjectSol directory)
      else if is_source_rust directory then construct (ProjectRust directory)
      else inl (NotSupportedProject (str_of_path directory))
  end.

(** The loop of [get_projects_in_workspace]: a folder whose project
    does not load is passed over. *)
Fixpoint collect_projects (workspace : path) (subfolders : list string)
  (projects : list project) : list project :=
  match subfolders with
  | [] => projects
  | folder :: rest =>
      let project_directory := join workspace folder in
      match load_project project_directory with
      | inr project => collect_projects workspace rest (projects ++ [project])
      | inl _ => collect_projects workspace rest projects
      end
  end.

Definition get_projects_in_workspace (workspace : path)
  : error + list project :=
  match guards_is_directory workspace with
  | Some e => inl (Collaborator e)
  | None =>
      match get_subfolders workspace with
      | inl e => inl (Collaborator e)
      | inr subfolders => inr (collect_projects workspace subfolders [])
      end
  end.

End WithFileSystem.

End Projects.


Definition sample_get_projects : string -> Projects.error unit + list string :=
  Projects.get_projects_in_workspace string string unit
    (fun _ => None)
    (fun d => String.eqb d "ws/c") (fun _ => false) (fun _ => false)
    (fun d => String.eqb d "ws/r" || String.eqb d "ws/broken")
    (fun d => inr ("clang:" ++ d)%string) (fun d => inr ("cpp:" ++ d)%string)
    (fun d => inr ("sol:" ++ d)%string)
    (fun d => if String.eqb d "ws/broken" then inl tt
              else inr ("rust:" ++ d)%string)
    (fun _ => inr ["c"; "docs"; "broken"; "r"])
    (fun d => d)
    (fun d f => (d ++ "/" ++ f)%string).

(** A sample manifest. *)
Definition sample_cargo : Cargo.CargoFile :=
  Cargo.mkCargoFile "Cargo.toml"
    (PyDict [("package", PyDict [("name", PyStr "adder");
                                 ("version", PyStr "0.1.0")]);
             ("bin", PyList [PyDict [("name", PyStr "adder");
                                     ("path", PyStr "src/main.rs")]])]).

(* ================================================================= *)
(** * Properties *)

(** ** Characters and digits *)

Ltac all_ascii c :=
  destruct c as [[] [] [] [] [] [] [] []].

(** Evaluates the left side of a hypothesis [v < base]. *)
Ltac eval_lhs H :=
  match type of H with
  | ?v < _ => let v' := eval vm_compute in v in change v with v' in H
  end.

Lemma digit_value_upper_char (c : ascii) :
  Py.digit_value (Py.upper_char c) = Py.digit_value c.
Proof. all_ascii c; reflexivity. Qed.

Lemma digit_is_no_space (c : ascii) (base : Z) :
  base <= 36 -> is_digit_of base c = true -> Py.is_space c = false.
Proof.
  unfold is_digit_of; intros Hb H; apply Z.ltb_lt in H.
  all_ascii c; try reflexivity; eval_lhs H; lia.
Qed.

Lemma digit_is_no_underscore (c : ascii) (base : Z) :
  base <= 36 -> is_digit_of base c = true -> Py.is_underscore c = false.
Proof.
  unfold is_digit_of; intros Hb H; apply Z.ltb_lt in H.
  all_ascii c; try reflexivity; eval_lhs H; lia.
Qed.

Lemma digit_is_no_sign (c : ascii) (base : Z) (r : string) :
  base <= 36 -> is_digit_of base c = true ->
  Py.split_sign (String c r) = (1, String c r).
Proof.
  unfold is_digit_of; intros Hb H; apply Z.ltb_lt in H.
  all_ascii c; try reflexivity; eval_lhs H; lia.
Qed.

Lemma hex_digit_is_no_x (c : ascii) :
  is_digit_of 16 c = true ->
  (Ascii.eqb c "x" || Ascii.eqb c "X")%bool = false.
Proof.
  unfold is_digit_of; intros H; apply Z.ltb_lt in H.
  all_ascii c; try reflexivity; eval_lhs H; lia.
Qed.

Lemma decimal_is_digit (c : ascii) :
  Py.is_decimal_char c = true -> is_digit_of 10 c = true.
Proof. all_ascii c; intros H; try reflexivity; discriminate H. Qed.

Lemma decimal_upper_char (c : ascii) :
  Py.is_decimal_char c = true -> Py.upper_char c = c.
Proof. all_ascii c; intros H; try reflexivity; discriminate H. Qed.

Lemma no_lowercase_upper_char (c : ascii) :
  is_lowercase_char c = false -> Py.upper_char c = c.
Proof. all_ascii c; intros H; try reflexivity; discriminate H. Qed.

Lemma hex_digit_digit_value (c : ascii) :
  is_digit_of 16 c = true -> hex_digit c = Some (Py.digit_value c).
Proof. all_ascii c; intros H; try reflexivity; discriminate H. Qed.

Lemma digit_value_range (c : ascii) : 0 <= Py.digit_value c.
Proof. all_ascii c; vm_compute; discriminate. Qed.

Lemma digit_cases (d : Z) :
  0 <= d < 16 ->
  d = 0 \/ d = 1 \/ d = 2 \/ d = 3 \/ d = 4 \/ d = 5 \/ d = 6 \/ d = 7 \/
  d = 8 \/ d = 9 \/ d = 10 \/ d = 11 \/ d = 12 \/ d = 13 \/ d = 14 \/ d = 15.
Proof. lia. Qed.

Ltac each_digit d H :=
  let C := fresh "C" in
  pose proof (digit_cases d H) as C;
  repeat (destruct C as [C | C]; [subst d | ]); [.. | subst d].

Lemma digit_value_digit_char (d : Z) :
  0 <= d < 16 -> Py.digit_value (Py.digit_char d) = d.
Proof. intros H; each_digit d H; reflexivity. Qed.

Lemma digit_char_decimal (d : Z) :
  0 <= d < 10 -> Py.is_decimal_char (Py.digit_char d) = true.
Proof.
  intros H; assert (H' : 0 <= d < 16) by lia.
  each_digit d H'; try reflexivity; lia.
Qed.

Lemma digit_char_is_hex (d : Z) :
  0 <= d < 16 -> is_digit_of 16 (Py.digit_char d) = true.
Proof. intros H; each_digit d H; reflexivity. Qed.

(** ** Strings of digits *)

Lemma append_assoc (s1 s2 s3 : string) :
  ((s1 ++ s2) ++ s3 = s1 ++ (s2 ++ s3))%string.
Proof. induction s1 as [|c s1 IH]; simpl; [reflexivity | now rewrite IH]. Qed.

Lemma append_empty_r (s : string) : (s ++ "")%string = s.
Proof. induction s as [|c s IH]; simpl; [reflexivity | now rewrite IH]. Qed.

Lemma length_append (s1 s2 : string) :
  String.length (s1 ++ s2) = (String.length s1 + String.length s2)%nat.
Proof. induction s1 as [|c s1 IH]; simpl; [reflexivity | now rewrite IH]. Qed.

Lemma all_chars_app (p : ascii -> bool) (s1 s2 : string) :
  Py.all_chars p (s1 ++ s2) = (Py.all_chars p s1 && Py.all_chars p s2)%bool.
Proof.
  induction s1 as [|c s1 IH]; simpl; [reflexivity |].
  now rewrite IH, andb_assoc.
Qed.

Lemma all_chars_impl (p q : ascii -> bool) (s : string) :
  (forall c, p c = true -> q c = true) ->
  Py.all_chars p s = true -> Py.all_chars q s = true.
Proof.
  intros Hpq; induction s as [|c s IH]; simpl; [reflexivity |].
  intros H; apply andb_true_iff in H as [Hc Hs].
  now rewrite (Hpq c Hc), (IH Hs).
Qed.

Lemma all_chars_fixed (f : ascii -> ascii) (p : ascii -> bool) (s : string) :
  (forall c, p c = true -> f c = c) ->
  Py.all_chars p s = true -> Py.map_chars f s = s.
Proof.
  intros Hf; induction s as [|c s IH]; simpl; [reflexivity |].
  intros H; apply andb_true_iff in H as [Hc Hs].
  now rewrite (Hf c Hc), (IH Hs).
Qed.

Lemma upper_app (s1 s2 : string) :
  Py.upper (s1 ++ s2) = (Py.upper s1 ++ Py.upper s2)%string.
Proof.
  unfold Py.upper; induction s1 as [|c s1 IH]; simpl; [reflexivity |].
  now rewrite IH.
Qed.

Lemma upper_length (s : string) : String.length (Py.upper s) = String.length s.
Proof.
  unfold Py.upper; induction s as [|c s IH]; simpl; [reflexivity | now rewrite IH].
Qed.

Lemma upper_decimal (s : string) :
  Py.all_chars Py.is_decimal_char s = true -> Py.upper s = s.
Proof. apply all_chars_fixed, decimal_upper_char. Qed.

Lemma upper_no_lowercase (s : string) :
  no_lowercase s = true -> Py.upper s = s.
Proof.
  apply all_chars_fixed; intros c H.
  apply no_lowercase_upper_char. now apply negb_true_iff in H.
Qed.

Lemma upper_keeps_digits (base : Z) (s : string) :
  Py.all_chars (is_digit_of base) (Py.upper s) = Py.all_chars (is_digit_of base) s.
Proof.
  unfold Py.upper; induction s as [|c s IH]; simpl; [reflexivity |].
  rewrite IH; unfold is_digit_of at 1 3.
  now rewrite digit_value_upper_char.
Qed.

Lemma fold_digits_app (base : Z) (s1 s2 : string) (acc : Z) :
  fold_digits base (s1 ++ s2) acc = fold_digits base s2 (fold_digits base s1 acc).
Proof.
  revert acc; induction s1 as [|c s1 IH]; intros acc; simpl; [reflexivity |].
  apply IH.
Qed.

Lemma to_base_app (base : Z) (fuel : nat) :
  forall n acc,
    Py.to_base base fuel n acc = (Py.to_base base fuel n "" ++ acc)%string.
Proof.
  induction fuel as [|fuel IH]; intros n acc; simpl; [reflexivity |].
  destruct (n <? base); [reflexivity |].
  rewrite IH, (IH _ (String _ "")), append_assoc. reflexivity.
Qed.

Lemma to_base_all (p : ascii -> bool) (base : Z) (fuel : nat) :
  0 < base ->
  (forall d, 0 <= d < base -> p (Py.digit_char d) = true) ->
  forall n acc,
    Py.all_chars p acc = true ->
    Py.all_chars p (Py.to_base base fuel n acc) = true.
Proof.
  intros Hb Hp; induction fuel as [|fuel IH]; intros n acc Hacc; simpl;
    [assumption |].
  assert (Hd : p (Py.digit_char (n mod base)) = true)
    by (apply Hp, Z.mod_pos_bound, Hb).
  destruct (n <? base).
  - simpl. now rewrite Hd, Hacc.
  - apply IH. simpl. now rewrite Hd, Hacc.
Qed.

Lemma to_base_value (base : Z) (fuel : nat) :
  2 <= base <= 16 ->
  forall n, 0 <= n < 2 ^ Z.of_nat fuel ->
    fold_digits base (Py.to_base base fuel n "") 0 = n.
Proof.
  intros Hb; induction fuel as [|fuel IH]; intros n Hn.
  - simpl in *. lia.
  - assert (Hm : 0 <= n mod base < base) by (apply Z.mod_pos_bound; lia).
    simpl Py.to_base. destruct (n <? base) eqn:E.
    + apply Z.ltb_lt in E. simpl.
      rewrite digit_value_digit_char by lia.
      rewrite Z.mod_small by lia. reflexivity.
    + apply Z.ltb_ge in E.
      rewrite to_base_app, fold_digits_app, IH.
      * simpl. rewrite digit_value_digit_char by lia.
        rewrite (Z.div_mod n base) at 3 by lia. lia.
      * rewrite Nat2Z.inj_succ, Z.pow_succ_r in Hn by lia.
        split; [apply Z.div_pos; lia |].
        apply Z.div_lt_upper_bound; [lia |].
        nia.
Qed.

Lemma digits_fuel (n : Z) :
  0 <= n -> 0 <= n < 2 ^ Z.of_nat (S (Z.to_nat (Z.log2 n))).
Proof.
  intros Hn; split; [assumption |].
  rewrite Nat2Z.inj_succ, Z2Nat.id by apply Z.log2_nonneg.
  destruct (Z.eq_dec n 0) as [-> | Hz]; [reflexivity |].
  apply Z.log2_spec; lia.
Qed.

Lemma digits_value (base n : Z) :
  2 <= base <= 16 -> 0 <= n -> fold_digits base (Py.digits base n) 0 = n.
Proof. intros Hb Hn; apply to_base_value, digits_fuel; assumption. Qed.

Lemma digits_all (p : ascii -> bool) (base n : Z) :
  0 < base ->
  (forall d, 0 <= d < base -> p (Py.digit_char d) = true) ->
  Py.all_chars p (Py.digits base n) = true.
Proof. intros Hb Hp; apply to_base_all; auto. Qed.

Lemma digits_not_empty (base n : Z) : Py.digits base n <> "".
Proof.
  unfold Py.digits; simpl. destruct (n <? base); [discriminate |].
  rewrite to_base_app. destruct (Py.to_base _ _ _ ""); discriminate.
Qed.

(** ** [int] on plain strings of digits *)

Lemma scan_digits_all (base : Z) (s : string) :
  base <= 36 ->
  Py.all_chars (is_digit_of base) s = true ->
  forall prev acc nd,
    Py.is_underscore prev = false ->
    Py.scan_digits base s prev acc nd
    = Some (fold_digits base s acc, (nd + String.length s)%nat, "").
Proof.
  intros Hb; induction s as [|c s IH]; intros Hs prev acc nd Hprev; simpl.
  - rewrite Hprev, Nat.add_0_r. reflexivity.
  - simpl in Hs; apply andb_true_iff in Hs as [Hc Hs].
    pose proof (digit_is_no_underscore c base Hb Hc) as Hu.
    rewrite Hu. unfold is_digit_of in Hc. rewrite Hc.
    rewrite (IH Hs c _ _ Hu). now rewrite Nat.add_succ_r.
Qed.

Lemma no_base_prefix (base : Z) (s : string) :
  base = 10 \/ base = 16 ->
  Py.all_chars (is_digit_of base) s = true ->
  Py.has_base_prefix base s = false.
Proof.
  intros [-> | ->] Hs; destruct s as [|c0 [|c1 r]]; try reflexivity.
  simpl in Hs |- *.
  apply andb_true_iff in Hs as [_ Hs]; apply andb_true_iff in Hs as [H1 _].
  rewrite (hex_digit_is_no_x c1 H1). apply andb_false_r.
Qed.

Lemma int_digits (base : Z) (s : string) :
  base = 16 \/ (base = 10 /\ (String.length s <= Py.max_str_digits)%nat) ->
  s <> "" ->
  Py.all_chars (is_digit_of base) s = true ->
  Py.int s base = Some (fold_digits base s 0).
Proof.
  intros Hlimit Hne Hs.
  assert (Hbase : base = 10 \/ base = 16) by (destruct Hlimit as [? | [? _]]; auto).
  assert (Hb : base <= 36) by (destruct Hbase; subst; lia).
  assert (Hlim : forall n, n = String.length s ->
            (Py.has_digit_limit base && Nat.ltb Py.max_str_digits n)%bool = false).
  { intros n ->. destruct Hlimit as [-> | [-> Hlen]]; [reflexivity |].
    apply andb_false_iff; right. apply Nat.ltb_ge. exact Hlen. }
  destruct s as [|c r]; [congruence |].
  pose proof Hs as Hall.
  simpl in Hs; apply andb_true_iff in Hs as [Hc Hr].
  unfold Py.int.
  assert (Hl : Py.lstrip (String c r) = String c r)
    by (simpl; now rewrite (digit_is_no_space c base Hb Hc)).
  rewrite Hl, (digit_is_no_sign c base r Hb Hc).
  unfold Py.skip_base_prefix. rewrite (no_base_prefix base _ Hbase Hall).
  simpl Py.starts_with_underscore.
  rewrite (digit_is_no_underscore c base Hb Hc).
  rewrite (scan_digits_all base _ Hb Hall) by reflexivity.
  cbn [Nat.add String.length Py.lstrip].
  rewrite (Hlim (S (String.length r)) eq_refl).
  f_equal. destruct (fold_digits _ _ _); reflexivity.
Qed.

Lemma decodeHex_from_digits (s : string) :
  Py.all_chars (is_digit_of 16) s = true ->
  forall acc, decodeHex_from s acc = Some (fold_digits 16 s acc).
Proof.
  induction s as [|c s IH]; intros Hs acc; cbn [decodeHex_from fold_digits];
    [reflexivity |].
  simpl in Hs; apply andb_true_iff in Hs as [Hc Hs].
  rewrite (hex_digit_digit_value c Hc), (IH Hs).
  now rewrite (Z.mul_comm 16 acc).
Qed.

Lemma decodeHex_digits (s : string) :
  s <> "" ->
  Py.all_chars (is_digit_of 16) s = true ->
  decodeHex s = Some (fold_digits 16 s 0).
Proof.
  intros Hne Hs; destruct s as [|c r]; [congruence |].
  unfold decodeHex. now apply decodeHex_from_digits.
Qed.

(** ** The argument codec *)

Lemma even_of_mod2 (n : nat) :
  Nat.even n = negb (Nat.eqb (n mod 2) 1).
Proof.
  rewrite (Nat.div_mod_eq n 2) at 1.
  rewrite Nat.add_comm, Nat.even_add_mul_2.
  pose proof (Nat.mod_upper_bound n 2 ltac:(lia)) as H.
  destruct (n mod 2)%nat as [|[|k]]; [reflexivity | reflexivity | lia].
Qed.

Lemma ensure_even_length_even (s : string) :
  Nat.even (String.length (ensure_even_length s)) = true.
Proof.
  unfold ensure_even_length, Py.len.
  destruct (Nat.eqb (String.length s mod 2) 1) eqn:E.
  - cbn [String.length]. rewrite Nat.even_succ, <- Nat.negb_even, even_of_mod2, E.
    reflexivity.
  - now rewrite even_of_mod2, E.
Qed.

Lemma ensure_even_length_of_even (s : string) :
  Nat.even (String.length s) = true -> ensure_even_length s = s.
Proof.
  unfold ensure_even_length, Py.len. rewrite even_of_mod2.
  now destruct (Nat.eqb _ 1).
Qed.

Lemma ensure_even_length_of_odd (s : string) :
  Nat.odd (String.length s) = true -> ensure_even_length s = String "0" s.
Proof.
  unfold ensure_even_length, Py.len. rewrite <- Nat.negb_even, even_of_mod2.
  now destruct (Nat.eqb _ 1).
Qed.


Lemma ensure_even_length_digits (s : string) :
  Py.all_chars (is_digit_of 16) s = true ->
  Py.all_chars (is_digit_of 16) (ensure_even_length s) = true.
Proof.
  intros H; unfold ensure_even_length; destruct (Nat.eqb _ 1); [| assumption].
  simpl. now rewrite H.
Qed.

Lemma ensure_even_length_not_empty (s : string) :
  s <> "" -> ensure_even_length s <> "".
Proof.
  intros H; unfold ensure_even_length; destruct (Nat.eqb _ 1);
    [discriminate | assumption].
Qed.

Lemma startswith_app (p s : string) : Py.startswith (p ++ s) p = true.
Proof.
  unfold Py.startswith; induction p as [|c p IH]; simpl.
  - now destruct s.
  - destruct (ascii_dec c c); [assumption | congruence].
Qed.

Lemma decimal_no_hex_prefix (s : string) :
  Py.all_chars Py.is_decimal_char s = true ->
  Py.startswith s HEX_PREFIX = false.
Proof.
  unfold Py.startswith, HEX_PREFIX.
  destruct s as [|c0 [|c1 r]]; cbn [String.prefix Py.all_chars];
    try reflexivity.
  - intros _. now destruct (ascii_dec "0" c0).
  - intros H. destruct (ascii_dec "0" c0); [| reflexivity].
    destruct (ascii_dec "X" c1) as [<- |]; [| reflexivity].
    change (Py.is_decimal_char "X") with false in H.
    rewrite andb_false_r in H. discriminate H.
Qed.

Lemma isnumeric_digits (n : Z) : Py.isnumeric (Py.digits 10 n) = true.
Proof.
  unfold Py.isnumeric.
  pose proof (digits_not_empty 10 n) as Hne.
  destruct (Py.digits 10 n) eqn:E; [congruence |].
  rewrite <- E. apply digits_all; [lia | apply digit_char_decimal].
Qed.

Lemma to_base_length (base : Z) (fuel : nat) :
  2 <= base ->
  forall k n,
    (1 <= k)%nat -> 0 <= n < base ^ Z.of_nat k ->
    (String.length (Py.to_base base fuel n "") <= k)%nat.
Proof.
  intros Hb; induction fuel as [|fuel IH]; intros k n Hk Hn; simpl; [lia |].
  destruct (n <? base) eqn:E; [simpl; lia |].
  apply Z.ltb_ge in E.
  rewrite to_base_app, length_append. cbn [String.length].
  destruct k as [|[|k]]; [lia | simpl in Hn; lia |].
  assert (Hq : 0 <= n / base < base ^ Z.of_nat (S k)).
  { split; [apply Z.div_pos; lia |].
    apply Z.div_lt_upper_bound; [lia |].
    rewrite (Nat2Z.inj_succ (S k)), Z.pow_succ_r in Hn by lia. lia. }
  specialize (IH (S k) (n / base) ltac:(lia) Hq). lia.
Qed.

Lemma to_base_length_lower (base : Z) (fuel : nat) :
  2 <= base ->
  forall k n,
    base ^ Z.of_nat k <= n < 2 ^ Z.of_nat fuel ->
    (k < String.length (Py.to_base base fuel n ""))%nat.
Proof.
  intros Hb; induction fuel as [|fuel IH]; intros k n Hn.
  - assert (0 < base ^ Z.of_nat k) by (apply Z.pow_pos_nonneg; lia).
    simpl in Hn. lia.
  - simpl. destruct (n <? base) eqn:E.
    + apply Z.ltb_lt in E. destruct k as [|k]; [simpl; lia |].
      rewrite Nat2Z.inj_succ, Z.pow_succ_r in Hn by lia.
      assert (0 < base ^ Z.of_nat k) by (apply Z.pow_pos_nonneg; lia). nia.
    + apply Z.ltb_ge in E.
      rewrite to_base_app, length_append. cbn [String.length].
      destruct k as [|k]; [lia |].
      assert (Hq : base ^ Z.of_nat k <= n / base < 2 ^ Z.of_nat fuel).
      { rewrite Nat2Z.inj_succ, Z.pow_succ_r in Hn by lia.
        rewrite (Nat2Z.inj_succ fuel), Z.pow_succ_r in Hn by lia.
        split.
        - apply Z.div_le_lower_bound; lia.
        - apply Z.div_lt_upper_bound; [lia |]. nia. }
      specialize (IH k (n / base) Hq). lia.
Qed.

(** An integer of at least [10 ^ max_str_digits] has more digits than
    the limit, and [str] refuses it. *)
Lemma str_beyond_limit (n : Z) :
  10 ^ Z.of_nat Py.max_str_digits <= Z.abs n ->
  Py.str n = Raise ValueError.
Proof.
  intros Hn. unfold Py.str.
  assert (H0 : 0 <= Z.abs n) by apply Z.abs_nonneg.
  assert (Hl : (Py.max_str_digits < String.length (Py.digits 10 (Z.abs n)))%nat).
  { apply to_base_length_lower; [lia |].
    split; [exact Hn | apply digits_fuel; exact H0]. }
  apply Nat.ltb_lt in Hl. now rewrite Hl.
Qed.

(** An integer below [10 ^ max_str_digits] has no more digits than the
    limit. *)
Lemma digits_within_limit (n : Z) :
  0 <= n < 10 ^ Z.of_nat Py.max_str_digits ->
  (String.length (Py.digits 10 n) <= Py.max_str_digits)%nat.
Proof.
  intros Hn. apply to_base_length; [lia | | exact Hn].
  unfold Py.max_str_digits. lia.
Qed.

Lemma ltb_limit_false (n : nat) :
  (n <= Py.max_str_digits)%nat -> Nat.ltb Py.max_str_digits n = false.
Proof. intros H. now apply Nat.ltb_ge. Qed.

Lemma str_nonneg (n : Z) :
  0 <= n < 10 ^ Z.of_nat Py.max_str_digits ->
  Py.str n = Ok (Py.digits 10 n).
Proof.
  intros Hn. unfold Py.str. rewrite Z.abs_eq by lia.
  rewrite (ltb_limit_false _ (digits_within_limit n Hn)).
  destruct (n <? 0) eqn:E; [apply Z.ltb_lt in E; lia | reflexivity].
Qed.

Lemma str_negative (n : Z) :
  - 10 ^ Z.of_nat Py.max_str_digits < n < 0 ->
  Py.str n = Ok (String "-" (Py.digits 10 (- n))).
Proof.
  intros Hn. unfold Py.str. rewrite Z.abs_neq by lia.
  rewrite (ltb_limit_false _ (digits_within_limit (- n) ltac:(lia))).
  destruct (n <? 0) eqn:E; [reflexivity | apply Z.ltb_ge in E; lia].
Qed.


(** A non-negative integer within the limit of [str] is encoded as its
    hexadecimal digits, padded to an even length. *)
Lemma prepare_argument_int (n : Z) :
  0 <= n < 10 ^ Z.of_nat Py.max_str_digits ->
  _prepare_argument (ArgInt n) = Ok (ensure_even_length (Py.digits 16 n)).
Proof.
  intros Hn. unfold _prepare_argument, str_of_argument.
  rewrite (str_nonneg n Hn). cbn [bind].
  assert (Hdec : Py.all_chars Py.is_decimal_char (Py.digits 10 n) = true)
    by (apply digits_all; [lia | apply digit_char_decimal]).
  rewrite (upper_decimal _ Hdec), (decimal_no_hex_prefix _ Hdec).
  unfold _prepare_decimal. rewrite isnumeric_digits. simpl negb. cbv iota.
  rewrite (int_digits 10 (Py.digits 10 n)); auto using digits_not_empty.
  - rewrite digits_value by lia.
    unfold Py.hex. destruct (n <? 0) eqn:E; [apply Z.ltb_lt in E; lia |].
    reflexivity.
  - right. split; [reflexivity | now apply digits_within_limit].
  - apply (all_chars_impl _ _ _ decimal_is_digit Hdec).
Qed.

(** A hex literal: after the upper-casing, the digits are what follows
    the prefix, padded to an even length. *)
Lemma prepare_argument_hex (p h : string) :
  p = "0x" \/ p = "0X" ->
  is_hex_string h = true ->
  _prepare_argument (ArgStr (p ++ h)) = Ok (ensure_even_length (Py.upper h)).
Proof.
  intros Hp Hh.
  assert (Hup : Py.upper (p ++ h) = ("0X" ++ Py.upper h)%string)
    by (rewrite upper_app; destruct Hp; subst; reflexivity).
  unfold _prepare_argument, str_of_argument. cbn [bind]. rewrite Hup.
  rewrite (startswith_app HEX_PREFIX).
  unfold _prepare_hexadecimal.
  change (Py.drop (Py.len HEX_PREFIX) ("0X" ++ Py.upper h)) with (Py.upper h).
  cbv zeta.
  unfold is_hex_string in Hh.
  assert (Hne : Py.upper h <> "") by (destruct h; [discriminate Hh | discriminate]).
  assert (Hall : Py.all_chars (is_digit_of 16) (Py.upper h) = true)
    by (rewrite upper_keeps_digits; destruct h; [discriminate Hh | exact Hh]).
  rewrite (int_digits 16 (ensure_even_length (Py.upper h)));
    auto using ensure_even_length_not_empty, ensure_even_length_digits.
Qed.

(** ** Claims on the argument codec and the code metadata *)

(** C1, as the code has it: the deploy data for bytecode [AABB], metadata
    (upgradeable, not payable) and arguments [5] and ["0XFF"] is the
    bytecode, the marker of the virtual machine, [0100] and the encoded
    arguments joined by [@]; the hex literal is emitted in upper case,
    [FF]. *)
Theorem C1_deploy_data_example (env : Environment) (address : option Address.t) :
  prepare_deploy_transaction_data
    (SmartContract_init address (Some "AABB") (Some (mkCodeMetadata true false)))
    [ArgInt 5; ArgStr "0XFF"]
  = Ok ("AABB@" ++ VM_TYPE_WASM_VM ++ "@0100@05@FF")%string.
Proof.
  unfold prepare_deploy_transaction_data; simpl.
  change (_prepare_argument (ArgInt 5)) with (@Ok string "05").
  change (_prepare_argument (ArgStr "0XFF")) with (@Ok string "FF").
  simpl. rewrite !append_assoc. reflexivity.
Qed.

(** C1 as stated fails: the data does not end in the lowercase [ff]. *)
Lemma C1_lowercase_counterexample :
  @prepare_deploy_transaction_data reference_env sample_contract
    [ArgInt 5; ArgStr "0XFF"]
  <> Ok ("AABB@" ++ @VM_TYPE_WASM_VM reference_env ++ "@0100@05@ff")%string.
Proof. vm_compute. discriminate. Qed.

(** C4: text that is no hexadecimal literal is let through by the check
    of [_prepare_hexadecimal]: a sign, a blank, a second prefix or an
    underscore after the [0X] prefix is accepted and returned as the
    encoded argument. *)
Theorem C4_hex_check_accepts_non_hex :
  _prepare_argument (ArgStr "0x+F") = Ok "+F" /\
  _prepare_argument (ArgStr "0x-f") = Ok "-F" /\
  _prepare_argument (ArgStr "0x F") = Ok " F" /\
  _prepare_argument (ArgStr "0x0xff") = Ok "0XFF" /\
  _prepare_argument (ArgStr "0xf_f") = Ok "0F_F" /\
  decodeHex "+F" = None /\ is_hex_string "+F" = false.
Proof. repeat split; reflexivity. Qed.


Lemma pow10_limit_positive : 4095 < 10 ^ Z.of_nat Py.max_str_digits.
Proof.
  apply Z.lt_le_trans with (10 ^ 4); [reflexivity |].
  apply Z.pow_le_mono_r; [lia |]. unfold Py.max_str_digits. lia.
Qed.



(** C6, as the code has it: for a non-empty string [h] of hexadecimal
    digits, the argument made of the prefix (in either case) and [h] is
    accepted and encoded as [h] in upper case, with one [0] in front when
    the length of [h] is odd; the result is [h] itself when [h] has an
    even length and no lowercase letter. *)
Theorem C6_hex_literal_encoding (p h : string) :
  p = "0x" \/ p = "0X" ->
  is_hex_string h = true ->
  _prepare_argument (ArgStr (p ++ h)) = Ok (ensure_even_length (Py.upper h)) /\
  (Nat.even (String.length h) = true ->
   ensure_even_length (Py.upper h) = Py.upper h) /\
  (Nat.odd (String.length h) = true ->
   ensure_even_length (Py.upper h) = String "0" (Py.upper h)) /\
  (no_lowercase h = true -> Py.upper h = h).
Proof.
  intros Hp Hh. repeat split.
  - now apply prepare_argument_hex.
  - intros He. apply ensure_even_length_of_even. now rewrite upper_length.
  - intros Ho. apply ensure_even_length_of_odd. now rewrite upper_length.
  - apply upper_no_lowercase.
Qed.

Lemma C6_hex_literal_encoding_witness :
  _prepare_argument (ArgStr ("0x" ++ "abc"))
  = Ok (ensure_even_length (Py.upper "abc")) /\
  (Nat.even (String.length "abc") = true ->
   ensure_even_length (Py.upper "abc") = Py.upper "abc") /\
  (Nat.odd (String.length "abc") = true ->
   ensure_even_length (Py.upper "abc") = String "0" (Py.upper "abc")) /\
  (no_lowercase "abc" = true -> Py.upper "abc" = "abc").
Proof. apply (C6_hex_literal_encoding "0x" "abc"); [left |]; reflexivity. Defined.

(** C6 as stated fails: an even-length hex string with a lowercase
    letter is not returned as it is. *)
Lemma C6_lowercase_counterexample :
  is_hex_string "ab" = true /\
  Nat.even (String.length "ab") = true /\
  _prepare_argument (ArgStr ("0X" ++ "ab")) <> Ok "ab".
Proof. repeat split; vm_compute; discriminate. Qed.

(** C7: [to_hex] follows the table for the four flag combinations: two
    bytes, the first [01] exactly when upgradeable and the second [02]
    exactly when payable. *)
Theorem C7_code_metadata_table :
  to_hex (mkCodeMetadata false false) = "0000" /\
  to_hex (mkCodeMetadata true false) = "0100" /\
  to_hex (mkCodeMetadata false true) = "0002" /\
  to_hex (mkCodeMetadata true true) = "0102" /\
  forall m : CodeMetadata,
    String.length (to_hex m) = 4%nat /\
    to_hex m = Bytes.hex [if upgradeable m then x01 else x00;
                          if payable m then x02 else x00].
Proof.
  repeat split; try reflexivity; destruct m as [[] []]; reflexivity.
Qed.

(** ** Bytes *)

Lemma to_Z_range (b : byte) : 0 <= Bytes.to_Z b < 256.
Proof.
  unfold Bytes.to_Z. pose proof (Byte.to_N_bounded b) as H.
  split; [apply N2Z.is_nonneg | lia].
Qed.

Lemma to_Z_of_Z (z : Z) : Bytes.to_Z (Bytes.of_Z z) = z mod 256.
Proof.
  pose proof (Z.mod_pos_bound z 256 ltac:(lia)) as Hm.
  unfold Bytes.to_Z, Bytes.of_Z.
  destruct (Byte.of_N (Z.to_N (z mod 256))) eqn:E.
  - apply Byte.to_of_N in E. rewrite E. apply Z2N.id; lia.
  - apply Byte.of_N_None_iff in E. lia.
Qed.

Lemma little_endian_length (length : nat) (n : Z) :
  List.length (Bytes.little_endian length n) = length.
Proof.
  revert n; induction length as [|l IH]; intros n; simpl;
    [reflexivity | now rewrite IH].
Qed.

(** The bytes of [little_endian], least significant first, add up to
    the number. *)
Lemma little_endian_value (length : nat) (n : Z) :
  Keccak.lane_of_bytes (map Bytes.to_Z (Bytes.little_endian length n))
  = n mod 256 ^ Z.of_nat length.
Proof.
  revert n; induction length as [|l IH]; intros n.
  - simpl. now rewrite Z.mod_1_r.
  - cbn [Bytes.little_endian map Keccak.lane_of_bytes fold_right].
    fold (Keccak.lane_of_bytes (map Bytes.to_Z (Bytes.little_endian l (n / 256)))).
    rewrite IH, to_Z_of_Z, Z.mod_mod by lia.
    rewrite Nat2Z.inj_succ, Z.pow_succ_r by lia.
    rewrite Z.rem_mul_r by lia. reflexivity.
Qed.

Lemma int_to_bytes_little_ok (n : Z) (length : nat) :
  0 <= n < 256 ^ Z.of_nat length ->
  Bytes.int_to_bytes_little n length = Ok (Bytes.little_endian length n).
Proof.
  intros [H0 H1]. unfold Bytes.int_to_bytes_little.
  destruct (n <? 0) eqn:E0; [apply Z.ltb_lt in E0; lia |].
  destruct (256 ^ Z.of_nat length <=? n) eqn:E1; [apply Z.leb_le in E1; lia |].
  reflexivity.
Qed.

Lemma hex_all_digits (bs : list byte) :
  Py.all_chars (is_digit_of 16) (Bytes.hex bs) = true.
Proof.
  induction bs as [|b bs IH]; [reflexivity |].
  pose proof (to_Z_range b) as Hb.
  cbn [Bytes.hex Py.all_chars].
  rewrite !digit_char_is_hex, IH; [reflexivity | |].
  - apply Z.mod_pos_bound; lia.
  - split; [apply Z.div_pos; lia | apply Z.div_lt_upper_bound; lia].
Qed.

Lemma hex_value (bs : list byte) (acc : Z) :
  fold_digits 16 (Bytes.hex bs) acc
  = fold_left (fun a b => a * 256 + Bytes.to_Z b) bs acc.
Proof.
  revert acc; induction bs as [|b bs IH]; intros acc; [reflexivity |].
  pose proof (to_Z_range b) as Hb.
  cbn [Bytes.hex fold_digits fold_left].
  rewrite !digit_value_digit_char, IH.
  - f_equal. pose proof (Z.div_mod (Bytes.to_Z b) 16 ltac:(lia)). lia.
  - apply Z.mod_pos_bound; lia.
  - split; [apply Z.div_pos; lia | apply Z.div_lt_upper_bound; lia].
Qed.

Lemma hex_not_empty (bs : list byte) : bs <> [] -> Bytes.hex bs <> "".
Proof. destruct bs; [congruence | discriminate]. Qed.

Lemma hex_empty (bs : list byte) : Bytes.hex bs = "" -> bs = [].
Proof. destruct bs; [reflexivity | discriminate]. Qed.

(** [int(b.hex(), 16)] fails on the empty byte string and is the
    big-endian value otherwise. *)
Lemma int_hex (bs : list byte) :
  Py.int (Bytes.hex bs) 16
  = match bs with
    | [] => None
    | _ => Some (Bytes.big_endian_value bs)
    end.
Proof.
  destruct bs as [|b bs]; [reflexivity |].
  rewrite (int_digits 16); auto using hex_all_digits.
  - now rewrite hex_value.
  - discriminate.
Qed.

Lemma keccak256_length (m : list byte) :
  List.length (Keccak.keccak256 m) = 32%nat.
Proof. unfold Keccak.keccak256. now rewrite length_map, length_seq. Qed.

(** ** Address derivation *)

Lemma compute_address_bytes_ok (owner_bytes : list byte) (owner_nonce : Z) :
  0 <= owner_nonce < 2 ^ 64 ->
  compute_address_bytes owner_bytes owner_nonce
  = Ok (repeat x00 8 ++ [x05; x00]
          ++ Bytes.slice 10 30
               (Keccak.keccak256
                  (owner_bytes ++ Bytes.little_endian 8 owner_nonce))
          ++ Bytes.slice_from 30 owner_bytes)%list.
Proof.
  intros Hn. unfold compute_address_bytes.
  rewrite int_to_bytes_little_ok by (change (256 ^ Z.of_nat 8) with (2 ^ 64); lia).
  reflexivity.
Qed.

Lemma slice_length {A : Type} (lo hi : nat) (l : list A) :
  (hi <= List.length l)%nat ->
  List.length (Bytes.slice lo hi l) = (hi - lo)%nat.
Proof.
  intros H. unfold Bytes.slice. rewrite length_firstn, length_skipn. lia.
Qed.

Lemma slice_to_end {A : Type} (lo : nat) (l : list A) :
  Bytes.slice lo (List.length l) l = Bytes.slice_from lo l.
Proof.
  unfold Bytes.slice, Bytes.slice_from.
  apply firstn_all2. rewrite length_skipn. lia.
Qed.

(** An address built by [compute_address] is never the zero address:
    its byte 8 is the marker [05]. *)
Lemma computed_address_not_zero (owner_bytes : list byte) (owner_nonce : Z)
  (a : list byte) :
  compute_address_bytes owner_bytes owner_nonce = Ok a ->
  Address.mk a <> Address.zero.
Proof.
  unfold compute_address_bytes.
  destruct (Bytes.int_to_bytes_little owner_nonce 8) as [nonce_bytes |];
    cbn [bind]; [| discriminate].
  intros H; injection H as <-. intros H.
  apply (f_equal (fun x => nth 8 (Address.pubkey x) x00)) in H.
  change (x05 = x00) in H. discriminate H.
Qed.

(** C3: for a 32-byte owner key and a nonce that fits 64 bits,
    [compute_address] sets the address to 8 zero bytes, the marker
    [05 00], bytes 10..30 of the Keccak-256 digest of the key followed by
    the nonce as 8 little-endian bytes, and bytes 30..32 of the key.  The
    contract that results holds exactly these bytes as its address and
    keeps its bytecode, metadata and owner.  The address is a function of
    key and nonce alone, has 32 bytes, and its last two bytes are those
    of the key. *)
Theorem C3_compute_address (self : SmartContract) (o : Account.t) :
  owner self = Some o ->
  List.length (Address.pubkey (Account.address o)) = 32%nat ->
  0 <= Account.nonce o < 2 ^ 64 ->
  let owner_bytes := Address.pubkey (Account.address o) in
  let nonce_bytes := Bytes.little_endian 8 (Account.nonce o) in
  let digest := Keccak.keccak256 (owner_bytes ++ nonce_bytes) in
  let a := (repeat x00 8 ++ [x05; x00] ++ Bytes.slice 10 30 digest
              ++ Bytes.slice 30 32 owner_bytes)%list in
  compute_address self = (set_address self (Address.mk a), Ok tt) /\
  Address.pubkey (address (fst (compute_address self))) = a /\
  bytecode (fst (compute_address self)) = bytecode self /\
  metadata (fst (compute_address self)) = metadata self /\
  owner (fst (compute_address self)) = Some o /\
  compute_address_bytes owner_bytes (Account.nonce o) = Ok a /\
  List.length nonce_bytes = 8%nat /\
  Keccak.lane_of_bytes (map Bytes.to_Z nonce_bytes) = Account.nonce o /\
  List.length digest = 32%nat /\
  List.length a = 32%nat /\
  Bytes.slice 0 10 a = (repeat x00 8 ++ [x05; x00])%list /\
  Bytes.slice 10 30 a = Bytes.slice 10 30 digest /\
  Bytes.slice 30 32 a = Bytes.slice 30 32 owner_bytes.
Proof.
  intros Ho Hlen Hn owner_bytes nonce_bytes digest a.
  assert (Hs : Bytes.slice 30 32 owner_bytes = Bytes.slice_from 30 owner_bytes)
    by (unfold owner_bytes; rewrite <- Hlen; apply slice_to_end).
  assert (Hc : compute_address_bytes owner_bytes (Account.nonce o) = Ok a)
    by (unfold a; rewrite Hs; now apply compute_address_bytes_ok).
  assert (Hd : List.length digest = 32%nat) by apply keccak256_length.
  assert (Ht : List.length (Bytes.slice 30 32 owner_bytes) = 2%nat)
    by (apply slice_length; unfold owner_bytes; lia).
  assert (Hm : List.length (Bytes.slice 10 30 digest) = 20%nat)
    by (apply slice_length; lia).
  assert (Hr : compute_address self = (set_address self (Address.mk a), Ok tt)).
  { unfold compute_address, bindM, read, lift, assign. rewrite Ho.
    fold owner_bytes. rewrite Hc. reflexivity. }
  refine (conj Hr (conj _ (conj _ (conj _ (conj _ (conj Hc (conj _ (conj _
            (conj Hd (conj _ (conj _ (conj _ _)))))))))))).
  - rewrite Hr. reflexivity.
  - rewrite Hr. reflexivity.
  - rewrite Hr. reflexivity.
  - rewrite Hr. exact Ho.
  - apply little_endian_length.
  - unfold nonce_bytes. rewrite little_endian_value.
    apply Z.mod_small. change (256 ^ Z.of_nat 8) with (2 ^ 64). lia.
  - unfold a. rewrite !length_app, Hm, Ht. reflexivity.
  - unfold a. reflexivity.
  - unfold a. unfold Bytes.slice at 1.
    change (skipn 10 (repeat x00 8 ++ [x05; x00] ++ ?t)%list) with t.
    rewrite firstn_app, Hm. change (20 - 20)%nat with 0%nat.
    rewrite firstn_O, app_nil_r. apply firstn_all2. rewrite Hm. lia.
  - unfold a. unfold Bytes.slice at 1.
    rewrite !app_assoc. rewrite skipn_app.
    rewrite skipn_all2 by (rewrite !length_app, Hm; simpl; lia).
    rewrite !length_app, Hm. simpl List.length. simpl Nat.sub. simpl skipn.
    apply firstn_all2. rewrite Ht. lia.
Qed.

Lemma C3_compute_address_witness :
  let self := set_owner sample_contract sample_owner in
  let a := (repeat x00 8 ++ [x05; x00]
              ++ [x87; xd6; xaa; x09; xca; xc9; xea; xb5; x8e; x9d;
                  x7b; x63; xe0; x9f; x1c; x8a; x28; x2e; xb6; x2c]
              ++ [x02; x03])%list in
  compute_address self = (set_address self (Address.mk a), Ok tt) /\
  Address.pubkey (address (fst (compute_address self))) = a /\
  owner (fst (compute_address self)) = Some sample_owner /\
  List.length a = 32%nat.
Proof.
  pose proof (C3_compute_address (set_owner sample_contract sample_owner)
                sample_owner eq_refl eq_refl ltac:(simpl; lia)) as H.
  cbv zeta in H. destruct H as (H1 & H2 & _ & _ & H3 & _ & _ & _ & _ & H4 & _).
  assert (Ha : (repeat x00 8 ++ [x05; x00]
                  ++ Bytes.slice 10 30
                       (Keccak.keccak256
                          (Address.pubkey (Account.address sample_owner)
                             ++ Bytes.little_endian 8
                                  (Account.nonce sample_owner)))
                  ++ Bytes.slice 30 32
                       (Address.pubkey (Account.address sample_owner)))%list
               = (repeat x00 8 ++ [x05; x00]
                    ++ [x87; xd6; xaa; x09; xca; xc9; xea; xb5; x8e; x9d;
                        x7b; x63; xe0; x9f; x1c; x8a; x28; x2e; xb6; x2c]
                    ++ [x02; x03])%list)
    by (vm_compute; reflexivity).
  rewrite Ha in H1, H2, H4. cbv zeta.
  exact (conj H1 (conj H2 (conj H3 H4))).
Defined.

(** ** Query results *)

Lemma interpret_decodable (s : string) (as_bytes : list byte) :
  Base64.b64decode s = Some as_bytes ->
  as_bytes <> [] ->
  _interpret_return_data (PyStr s)
  = (PyQueryResult
       (mkQueryResult s (Bytes.hex as_bytes) (Bytes.big_endian_value as_bytes)),
     []).
Proof.
  intros Hd Hne. unfold _interpret_return_data.
  destruct s as [|c r]; [vm_compute in Hd; congruence |].
  cbn [truthy negb]. rewrite Hd, int_hex.
  destruct as_bytes; [congruence | reflexivity].
Qed.

Lemma interpret_undecodable (s : string) :
  s <> "" ->
  Base64.b64decode s = None ->
  _interpret_return_data (PyStr s) = (PyNone, [Warn_cannot_interpret (PyStr s)]).
Proof.
  intros Hne Hd. unfold _interpret_return_data.
  destruct s as [|c r]; [congruence |].
  cbn [truthy negb]. now rewrite Hd.
Qed.

(** C9: a [QueryResult] produced by [_interpret_return_data] comes from a
    non-empty text entry, keeps that entry as [base64], has for [hex] the
    hexadecimal form of the bytes the entry decodes to, and for [number]
    that hexadecimal string read in base 16 (the big-endian value of the
    bytes); nothing is logged. *)
Theorem C9_query_result_consistent (data : pyval) (q : QueryResult)
  (log : list log_record) :
  _interpret_return_data data = (PyQueryResult q, log) ->
  exists as_bytes,
    data = PyStr (base64 q) /\
    base64 q <> "" /\
    Base64.b64decode (base64 q) = Some as_bytes /\
    hex q = Bytes.hex as_bytes /\
    Py.int (hex q) 16 = Some (number q) /\
    decodeHex (hex q) = Some (number q) /\
    number q = Bytes.big_endian_value as_bytes /\
    log = [].
Proof.
  unfold _interpret_return_data.
  destruct (truthy data) eqn:Ht; cbn [negb].
  - destruct data as [| s | | | |]; try discriminate.
    destruct (Base64.b64decode s) as [as_bytes |] eqn:Hd; [| discriminate].
    destruct (Py.int (Bytes.hex as_bytes) 16) as [n |] eqn:Hi; [| discriminate].
    intros H; injection H as <- <-. cbn [base64 hex number].
    exists as_bytes.
    rewrite int_hex in Hi.
    destruct as_bytes as [|b bs]; [discriminate |]. injection Hi as <-.
    refine (conj eq_refl (conj _ (conj Hd (conj eq_refl
              (conj _ (conj _ (conj eq_refl eq_refl))))))).
    + destruct s; [discriminate Ht | discriminate].
    + apply int_hex.
    + rewrite decodeHex_digits by (auto using hex_all_digits; discriminate).
      now rewrite hex_value.
  - intros H; injection H as -> _. discriminate Ht.
Qed.

Lemma C9_query_result_consistent_witness :
  exists as_bytes,
    PyStr "AQI=" = PyStr "AQI=" /\
    "AQI=" <> "" /\
    Base64.b64decode "AQI=" = Some as_bytes /\
    "0102" = Bytes.hex as_bytes /\
    Py.int "0102" 16 = Some 258 /\
    decodeHex "0102" = Some 258 /\
    258 = Bytes.big_endian_value as_bytes /\
    @nil log_record = [].
Proof.
  exact (C9_query_result_consistent (PyStr "AQI=")
           (mkQueryResult "AQI=" "0102" 258) [] eq_refl).
Defined.

Lemma query_of_return_data (env : Environment) (self : SmartContract)
  (proxy : IElrondProxy) (function : string)
  (arguments : option (list argument)) (value : Z) (caller : option Address.t)
  (d : list (string * pyval)) (entries : list pyval) :
  query_detailed self proxy function arguments value caller = Ok (PyDict d) ->
  lookup "returnData" d = Some (PyList entries) ->
  entries <> [] ->
  query self proxy function arguments value caller
  = (Ok (map (fun e => fst (_interpret_return_data e)) entries),
     List.concat (map (fun e => snd (_interpret_return_data e)) entries)).
Proof.
  intros Hq Hl Hne. unfold query. rewrite Hq.
  cbn [bind get]. rewrite Hl. cbn [bind].
  destruct entries as [|e es]; [congruence |].
  cbn [truthy bind iterate]. now rewrite !map_map.
Qed.

(** The list that [query] reads the entries from: the one under
    [returnData] when it is not empty, else the one under [ReturnData]. *)
Lemma query_of_either_key (env : Environment) (self : SmartContract)
  (proxy : IElrondProxy) (function : string)
  (arguments : option (list argument)) (value : Z) (caller : option Address.t)
  (d : list (string * pyval)) (entries : list pyval) :
  query_detailed self proxy function arguments value caller = Ok (PyDict d) ->
  (lookup "returnData" d = Some (PyList entries) /\ entries <> []) \/
  (match lookup "returnData" d with
   | Some first => truthy first = false
   | None => True
   end /\ lookup "ReturnData" d = Some (PyList entries)) ->
  query self proxy function arguments value caller
  = (Ok (map (fun e => fst (_interpret_return_data e)) entries),
     List.concat (map (fun e => snd (_interpret_return_data e)) entries)).
Proof.
  intros Hq [[Hl Hne] | [Hfirst Hl]].
  - now apply query_of_return_data with (d := d).
  - unfold query. rewrite Hq. cbn [bind get].
    destruct (lookup "returnData" d) as [first |]; cbn [bind].
    + rewrite Hfirst, Hl. cbn [bind iterate]. now rewrite !map_map.
    + cbn [truthy]. rewrite Hl. cbn [bind iterate]. now rewrite !map_map.
Qed.

(** C2, as the code has it: when the response carries a return-data
    list (under [returnData], or under [ReturnData] when the first is
    missing or empty), [query] returns one result per entry, in order.
    A non-empty text entry that cannot be base64-decoded is reported at
    its position as [None], with a warning in the log, and the entries
    that decode are still returned as [QueryResult]s. *)
Theorem C2_query_undecodable_entry (env : Environment) (self : SmartContract)
  (proxy : IElrondProxy) (function : string)
  (arguments : option (list argument)) (value : Z) (caller : option Address.t)
  (d : list (string * pyval)) (entries : list pyval) :
  query_detailed self proxy function arguments value caller = Ok (PyDict d) ->
  (lookup "returnData" d = Some (PyList entries) /\ entries <> []) \/
  (match lookup "returnData" d with
   | Some first => truthy first = false
   | None => True
   end /\ lookup "ReturnData" d = Some (PyList entries)) ->
  exists results log,
    query self proxy function arguments value caller = (Ok results, log) /\
    List.length results = List.length entries /\
    forall i s,
      nth_error entries i = Some (PyStr s) ->
      s <> "" ->
      (Base64.b64decode s = None ->
       nth_error results i = Some PyNone /\
       In (Warn_cannot_interpret (PyStr s)) log) /\
      (forall as_bytes,
          Base64.b64decode s = Some as_bytes ->
          as_bytes <> [] ->
          nth_error results i
          = Some (PyQueryResult
                    (mkQueryResult s (Bytes.hex as_bytes)
                       (Bytes.big_endian_value as_bytes)))).
Proof.
  intros Hq Hsel.
  eexists; eexists.
  split; [apply (query_of_either_key env) with (d := d) (entries := entries);
          assumption |].
  split; [apply length_map |].
  intros i s Hi Hs. split.
  - intros Hd. split.
    + rewrite nth_error_map, Hi. cbn [option_map].
      now rewrite interpret_undecodable.
    + apply in_concat. exists [Warn_cannot_interpret (PyStr s)].
      split; [| now left].
      apply in_map_iff. exists (PyStr s). split.
      * now rewrite interpret_undecodable.
      * eapply nth_error_In; eassumption.
  - intros as_bytes Hd Hb.
    rewrite nth_error_map, Hi. cbn [option_map].
    now rewrite (interpret_decodable s as_bytes).
Qed.

Lemma C2_query_undecodable_entry_witness :
  exists results log,
    @query reference_env sample_deployed
      (sample_proxy [PyStr "AQ=="; PyStr "A"]) "get" None 0 None
    = (Ok results, log) /\
    List.length results = 2%nat /\
    nth_error results 0
    = Some (PyQueryResult (mkQueryResult "AQ==" "01" 1)) /\
    nth_error results 1 = Some PyNone /\
    In (Warn_cannot_interpret (PyStr "A")) log.
Proof.
  assert (Hd : @query_detailed reference_env sample_deployed
                 (sample_proxy [PyStr "AQ=="; PyStr "A"]) "get" None 0 None
               = Ok (PyDict [("returnData", PyList [PyStr "AQ=="; PyStr "A"])]))
    by (vm_compute; reflexivity).
  assert (Hl : lookup "returnData"
                 [("returnData", PyList [PyStr "AQ=="; PyStr "A"])]
               = Some (PyList [PyStr "AQ=="; PyStr "A"]) /\
               [PyStr "AQ=="; PyStr "A"] <> [])
    by (split; [reflexivity | discriminate]).
  destruct (C2_query_undecodable_entry reference_env sample_deployed
              (sample_proxy [PyStr "AQ=="; PyStr "A"]) "get" None 0 None
              [("returnData", PyList [PyStr "AQ=="; PyStr "A"])]
              [PyStr "AQ=="; PyStr "A"] Hd (or_introl Hl))
    as (results & log & Hq & Hlen & Hent).
  exists results, log.
  split; [exact Hq |]. split; [exact Hlen |].
  destruct (Hent 0%nat "AQ==" eq_refl ltac:(discriminate)) as [_ Hgood].
  destruct (Hent 1%nat "A" eq_refl ltac:(discriminate)) as [Hbad _].
  split; [exact (Hgood [x01] eq_refl ltac:(discriminate)) |].
  exact (Hbad eq_refl).
Defined.

(** C2 as stated fails: on a deployed contract, the entry that cannot
    be decoded comes back as the plain [None] that a null entry also
    yields, and the failure shows only in the log. *)
Lemma C2_generic_null_counterexample :
  exists results,
    @query reference_env sample_deployed
      (sample_proxy [PyStr "AQ=="; PyStr "A"; PyNone]) "get" None 0 None
    = (Ok results, [Warn_cannot_interpret (PyStr "A")]) /\
    results = [PyQueryResult (mkQueryResult "AQ==" "01" 1); PyNone; PyNone] /\
    nth_error results 1 = Some PyNone /\
    nth_error results 1 = nth_error results 2.
Proof. eexists. split; [vm_compute; reflexivity |]. repeat split. Qed.

(** ** The transaction builders *)

Section Builders.

Context {env : Environment}.

Variables (account : Account.t) (arguments : option (list argument)).
Variables (gas_price gas_limit value : option Z).
Variables (chain : string) (version : Z).

Lemma zero_bech32 : Address_bech32 Address.zero = Ok (bech32 Address.zero).
Proof. reflexivity. Qed.

(** The steps of [deploy], one after the other. *)
Lemma deploy_steps (self : SmartContract) :
  deploy account arguments gas_price gas_limit value chain version self
  = let self1 := set_owner self account in
    match compute_address_bytes (Address.pubkey (Account.address account))
            (Account.nonce account) with
    | Raise e => (self1, Raise e)
    | Ok a =>
        let self2 := set_address self1 (Address.mk a) in
        match int_of gas_price with
        | Raise e => (self2, Raise e)
        | Ok price =>
            match int_of gas_limit with
            | Raise e => (self2, Raise e)
            | Ok limit =>
                match Py.str (or_int value 0) with
                | Raise e => (self2, Raise e)
                | Ok value_text =>
                    match Address_bech32 (Account.address account) with
                    | Raise e => (self2, Raise e)
                    | Ok sender =>
                        match prepare_deploy_transaction_data self2
                                (or_nil arguments) with
                        | Raise e => (self2, Raise e)
                        | Ok data =>
                            let tx :=
                              Transaction.mk (Account.nonce account)
                                value_text sender (bech32 Address.zero)
                                price limit data chain version "" in
                            match sign_transaction account tx with
                            | Raise e => (self2, Raise e)
                            | Ok sig =>
                                (self2, Ok (Transaction.set_signature tx sig))
                            end
                        end
                    end
                end
            end
        end
    end.
Proof.
  unfold deploy, compute_address, bindM, assign, read, lift, ret.
  cbn [owner set_owner]. rewrite zero_bech32.
  destruct (compute_address_bytes _ _); [| reflexivity].
  destruct (int_of gas_price); [| reflexivity].
  destruct (int_of gas_limit); [| reflexivity].
  destruct (Py.str _); [| reflexivity].
  destruct (Address_bech32 _); [| reflexivity].
  destruct (prepare_deploy_transaction_data _ _); [| reflexivity].
  cbv zeta. destruct (sign_transaction _ _); reflexivity.
Qed.

Lemma execute_steps (function : string) (self : SmartContract) :
  execute account function arguments gas_price gas_limit value chain version self
  = let self1 := set_caller self account in
    match int_of gas_price with
    | Raise e => (self1, Raise e)
    | Ok price =>
        match int_of gas_limit with
        | Raise e => (self1, Raise e)
        | Ok limit =>
            match Py.str (or_int value 0) with
            | Raise e => (self1, Raise e)
            | Ok value_text =>
                match Address_bech32 (Account.address account) with
                | Raise e => (self1, Raise e)
                | Ok sender =>
                    match Address_bech32 (address self) with
                    | Raise e => (self1, Raise e)
                    | Ok receiver =>
                        match prepare_execute_transaction_data self1 function
                                (or_nil arguments) with
                        | Raise e => (self1, Raise e)
                        | Ok data =>
                            let tx :=
                              Transaction.mk (Account.nonce account)
                                value_text sender receiver
                                price limit data chain version "" in
                            match sign_transaction account tx with
                            | Raise e => (self1, Raise e)
                            | Ok sig =>
                                (self1, Ok (Transaction.set_signature tx sig))
                            end
                        end
                    end
                end
            end
        end
    end.
Proof.
  unfold execute, bindM, assign, read, lift, ret.
  cbn [address set_caller].
  destruct (int_of gas_price); [| reflexivity].
  destruct (int_of gas_limit); [| reflexivity].
  destruct (Py.str _); [| reflexivity].
  destruct (Address_bech32 (Account.address account)); [| reflexivity].
  destruct (Address_bech32 (address self)); [| reflexivity].
  destruct (prepare_execute_transaction_data _ _ _); [| reflexivity].
  cbv zeta. destruct (sign_transaction _ _); reflexivity.
Qed.

Lemma upgrade_steps (self : SmartContract) :
  upgrade account arguments gas_price gas_limit value chain version self
  = let self1 := set_owner self account in
    match int_of gas_limit with
    | Raise e => (self1, Raise e)
    | Ok limit =>
        match Py.str (or_int value 0) with
        | Raise e => (self1, Raise e)
        | Ok value_text =>
            match Address_bech32 (Account.address account) with
            | Raise e => (self1, Raise e)
            | Ok sender =>
                match Address_bech32 (address self) with
                | Raise e => (self1, Raise e)
                | Ok receiver =>
                    match prepare_upgrade_transaction_data self1
                            (or_nil arguments) with
                    | Raise e => (self1, Raise e)
                    | Ok data =>
                        let tx :=
                          Transaction.mk (Account.nonce account)
                            value_text sender receiver
                            (or_int gas_price DEFAULT_GAS_PRICE) limit data
                            chain version "" in
                        match sign_transaction account tx with
                        | Raise e => (self1, Raise e)
                        | Ok sig =>
                            (self1, Ok (Transaction.set_signature tx sig))
                        end
                    end
                end
            end
        end
    end.
Proof.
  unfold upgrade, bindM, assign, read, lift, ret.
  cbn [address set_owner].
  destruct (int_of gas_limit); [| reflexivity].
  destruct (Py.str _); [| reflexivity].
  destruct (Address_bech32 (Account.address account)); [| reflexivity].
  destruct (Address_bech32 (address self)); [| reflexivity].
  destruct (prepare_upgrade_transaction_data _ _); [| reflexivity].
  cbv zeta. destruct (sign_transaction _ _); reflexivity.
Qed.

(** The text form of an address, when [bech32] answers. *)
Lemma bech32_inv (a : Address.t) (text : string) :
  Address_bech32 a = Ok text -> Address.pubkey a <> [] /\ text = bech32 a.
Proof.
  unfold Address_bech32. destruct (Address.pubkey a); [discriminate |].
  intros H; injection H as <-. split; [discriminate | reflexivity].
Qed.

Lemma deploy_fields (self : SmartContract) (tx : Transaction.t) :
  snd (deploy account arguments gas_price gas_limit value chain version self)
  = Ok tx ->
  common_fields account gas_limit value chain version tx /\
  gas_price = Some (Transaction.gasPrice tx) /\
  Transaction.receiver tx = bech32 Address.zero.
Proof.
  unfold common_fields. rewrite deploy_steps. cbv zeta.
  destruct (compute_address_bytes _ _); [| discriminate].
  destruct gas_price; [| discriminate].
  destruct gas_limit; [| discriminate].
  cbn [int_of].
  destruct (Py.str _) as [value_text |]; [| discriminate].
  destruct (Address_bech32 _) as [sender |] eqn:Hs; [| discriminate].
  apply bech32_inv in Hs as [_ ->].
  destruct (prepare_deploy_transaction_data _ _); [| discriminate].
  destruct (sign_transaction _ _); [| discriminate].
  cbn [snd]. intros H; injection H as <-.
  cbn. repeat split.
Qed.

Lemma execute_fields (function : string) (self : SmartContract)
  (tx : Transaction.t) :
  snd (execute account function arguments gas_price gas_limit value
         chain version self)
  = Ok tx ->
  common_fields account gas_limit value chain version tx /\
  gas_price = Some (Transaction.gasPrice tx) /\
  Transaction.receiver tx = bech32 (address self) /\
  Address.pubkey (address self) <> [].
Proof.
  unfold common_fields. rewrite execute_steps. cbv zeta.
  destruct gas_price; [| discriminate].
  destruct gas_limit; [| discriminate].
  cbn [int_of].
  destruct (Py.str _) as [value_text |]; [| discriminate].
  destruct (Address_bech32 (Account.address account)) as [sender |] eqn:Hs;
    [| discriminate].
  apply bech32_inv in Hs as [_ ->].
  destruct (Address_bech32 (address self)) as [receiver |] eqn:Hr;
    [| discriminate].
  apply bech32_inv in Hr as [Hne ->].
  destruct (prepare_execute_transaction_data _ _ _); [| discriminate].
  destruct (sign_transaction _ _); [| discriminate].
  cbn [snd]. intros H; injection H as <-.
  cbn. repeat split. exact Hne.
Qed.

Lemma upgrade_fields (self : SmartContract) (tx : Transaction.t) :
  snd (upgrade account arguments gas_price gas_limit value chain version self)
  = Ok tx ->
  common_fields account gas_limit value chain version tx /\
  Transaction.gasPrice tx = or_int gas_price DEFAULT_GAS_PRICE /\
  Transaction.receiver tx = bech32 (address self) /\
  Address.pubkey (address self) <> [].
Proof.
  unfold common_fields. rewrite upgrade_steps. cbv zeta.
  destruct gas_limit; [| discriminate].
  cbn [int_of].
  destruct (Py.str _) as [value_text |]; [| discriminate].
  destruct (Address_bech32 (Account.address account)) as [sender |] eqn:Hs;
    [| discriminate].
  apply bech32_inv in Hs as [_ ->].
  destruct (Address_bech32 (address self)) as [receiver |] eqn:Hr;
    [| discriminate].
  apply bech32_inv in Hr as [Hne ->].
  destruct (prepare_upgrade_transaction_data _ _); [| discriminate].
  destruct (sign_transaction _ _); [| discriminate].
  cbn [snd]. intros H; injection H as <-.
  cbn. repeat split. exact Hne.
Qed.

Lemma execute_without_gas_price (function : string) (self : SmartContract) :
  gas_price = None ->
  snd (execute account function arguments gas_price gas_limit value
         chain version self)
  = Raise TypeError.
Proof. intros H. rewrite execute_steps, H. reflexivity. Qed.

Lemma deploy_without_gas_price (self : SmartContract) :
  gas_price = None ->
  (0 <= Account.nonce account < 2 ^ 64 ->
   snd (deploy account arguments gas_price gas_limit value chain version self)
   = Raise TypeError) /\
  (Account.nonce account < 0 \/ 2 ^ 64 <= Account.nonce account ->
   snd (deploy account arguments gas_price gas_limit value chain version self)
   = Raise OverflowError).
Proof.
  intros H. rewrite deploy_steps, H. cbv zeta. split; intros Hn.
  - rewrite compute_address_bytes_ok by exact Hn. reflexivity.
  - unfold compute_address_bytes.
    assert (Ho : Bytes.int_to_bytes_little (Account.nonce account) 8
                 = Raise OverflowError).
    { unfold Bytes.int_to_bytes_little.
      destruct (Account.nonce account <? 0) eqn:E0; [reflexivity |].
      destruct (256 ^ Z.of_nat 8 <=? Account.nonce account) eqn:E1;
        [reflexivity |].
      apply Z.ltb_ge in E0. apply Z.leb_gt in E1.
      change (256 ^ Z.of_nat 8) with (2 ^ 64) in E1. lia. }
    rewrite Ho. reflexivity.
Qed.

End Builders.

(** C8: whenever [deploy] returns a transaction, the nonce on the
    transaction is the owner's nonce, the address stored on the contract
    is the one derived from the owner's key and that same nonce, and the
    receiver is the text form of the zero address, which the derived
    address never is. *)
Theorem C8_deploy_nonce_and_receiver (env : Environment)
  (owner_account : Account.t) (arguments : option (list argument))
  (gas_price gas_limit value : option Z) (chain : string) (version : Z)
  (self self' : SmartContract) (tx : Transaction.t) :
  deploy owner_account arguments gas_price gas_limit value chain version self
  = (self', Ok tx) ->
  Transaction.nonce tx = Account.nonce owner_account /\
  compute_address_bytes (Address.pubkey (Account.address owner_account))
    (Transaction.nonce tx)
  = Ok (Address.pubkey (address self')) /\
  owner self' = Some owner_account /\
  Transaction.receiver tx = bech32 Address.zero /\
  address self' <> Address.zero.
Proof.
  rewrite deploy_steps. cbv zeta.
  destruct (compute_address_bytes _ _) as [a |] eqn:Ha; [| discriminate].
  destruct (int_of gas_price); [| discriminate].
  destruct (int_of gas_limit); [| discriminate].
  destruct (Py.str _); [| discriminate].
  destruct (Address_bech32 _); [| discriminate].
  destruct (prepare_deploy_transaction_data _ _); [| discriminate].
  destruct (sign_transaction _ _); [| discriminate].
  intros H; injection H as <- <-.
  cbn [Transaction.nonce Transaction.receiver Transaction.set_signature
       address owner set_address set_owner Address.pubkey].
  refine (conj eq_refl (conj Ha (conj eq_refl (conj eq_refl _)))).
  exact (computed_address_not_zero _ _ _ Ha).
Qed.

Lemma C8_deploy_nonce_and_receiver_witness :
  exists self' tx,
    @deploy reference_env sample_owner (Some [ArgInt 5; ArgStr "0XFF"])
      (Some 1000000000) (Some 5000000) None "T" 1 sample_contract
    = (self', Ok tx) /\
    Transaction.nonce tx = 7 /\
    compute_address_bytes (Address.pubkey (Account.address sample_owner)) 7
    = Ok (Address.pubkey (address self')) /\
    Transaction.receiver tx = @bech32 reference_env Address.zero /\
    address self' <> Address.zero.
Proof.
  destruct (@deploy reference_env sample_owner (Some [ArgInt 5; ArgStr "0XFF"])
              (Some 1000000000) (Some 5000000) None "T" 1 sample_contract)
    as [self' [tx | e]] eqn:E.
  - exists self', tx. split; [reflexivity |].
    destruct (C8_deploy_nonce_and_receiver reference_env sample_owner
                (Some [ArgInt 5; ArgStr "0XFF"]) (Some 1000000000)
                (Some 5000000) None "T" 1 sample_contract self' tx E)
      as (H1 & H2 & _ & H3 & H4).
    rewrite H1 in H2.
    split; [exact H1 |]. split; [exact H2 |]. split; [exact H3 | exact H4].
  - vm_compute in E. discriminate E.
Defined.

(** C10, as the code has it: [upgrade] replaces a falsy gas price ([None]
    or [0]) by the default and keeps any other; [deploy] and [execute]
    put an integer gas price on the transaction as it is, [0] included.
    On [None] they build no transaction: [execute] raises [TypeError],
    and so does [deploy] for an owner that has a key, unless the nonce
    of the owner does not fit 8 bytes, in which case the [OverflowError]
    of the address derivation comes first.  Nonce, value, sender, gas limit, chain and version are
    built alike in the three builders; the receiver is the contract
    address for [upgrade] and [execute] and the zero address for
    [deploy]. *)
Theorem C10_gas_price_paths (env : Environment) (account : Account.t)
  (function : string) (arguments : option (list argument))
  (gas_price gas_limit value : option Z) (chain : string) (version : Z)
  (self : SmartContract) :
  let up := snd (upgrade account arguments gas_price gas_limit value
                   chain version self) in
  let dp := snd (deploy account arguments gas_price gas_limit value
                   chain version self) in
  let ex := snd (execute account function arguments gas_price gas_limit value
                   chain version self) in
  (forall tx, up = Ok tx ->
     (gas_price = None \/ gas_price = Some 0 ->
      Transaction.gasPrice tx = DEFAULT_GAS_PRICE) /\
     (forall g, gas_price = Some g -> g <> 0 -> Transaction.gasPrice tx = g)) /\
  (forall tx, dp = Ok tx -> gas_price = Some (Transaction.gasPrice tx)) /\
  (forall tx, ex = Ok tx -> gas_price = Some (Transaction.gasPrice tx)) /\
  (gas_price = None ->
   ex = Raise TypeError /\
   (Address.pubkey (Account.address account) <> [] ->
    (0 <= Account.nonce account < 2 ^ 64 -> dp = Raise TypeError) /\
    (Account.nonce account < 0 \/ 2 ^ 64 <= Account.nonce account ->
     dp = Raise OverflowError))) /\
  (forall tu td te, up = Ok tu -> dp = Ok td -> ex = Ok te ->
     Transaction.nonce tu = Transaction.nonce td /\
     Transaction.nonce tu = Transaction.nonce te /\
     Transaction.value tu = Transaction.value td /\
     Transaction.value tu = Transaction.value te /\
     Transaction.sender tu = Transaction.sender td /\
     Transaction.sender tu = Transaction.sender te /\
     Transaction.gasLimit tu = Transaction.gasLimit td /\
     Transaction.gasLimit tu = Transaction.gasLimit te /\
     Transaction.chainID tu = Transaction.chainID td /\
     Transaction.chainID tu = Transaction.chainID te /\
     Transaction.version tu = Transaction.version td /\
     Transaction.version tu = Transaction.version te /\
     Transaction.receiver tu = bech32 (address self) /\
     Transaction.receiver te = bech32 (address self) /\
     Transaction.receiver td = bech32 Address.zero).
Proof.
  cbv zeta. refine (conj _ (conj _ (conj _ (conj _ _)))).
  - intros tx H. apply upgrade_fields in H as (_ & Hg & _).
    rewrite Hg. split.
    + intros [-> | ->]; reflexivity.
    + intros g -> Hne. cbn [or_int].
      destruct (Z.eqb_spec g 0); [contradiction | reflexivity].
  - intros tx H. now apply deploy_fields in H as (_ & Hg & _).
  - intros tx H. now apply execute_fields in H as (_ & Hg & _).
  - intros Hn. split; [now apply execute_without_gas_price |].
    intros _. now apply deploy_without_gas_price.
  - intros tu td te Hu Hd He.
    apply upgrade_fields in Hu as ((U1 & U2 & U3 & U4 & U5 & U6) & _ & Ur & _).
    apply deploy_fields in Hd as ((D1 & D2 & D3 & D4 & D5 & D6) & _ & Dr).
    apply execute_fields in He as ((E1 & E2 & E3 & E4 & E5 & E6) & _ & Er & _).
    assert (Transaction.gasLimit tu = Transaction.gasLimit td) by congruence.
    assert (Transaction.gasLimit tu = Transaction.gasLimit te) by congruence.
    assert (Transaction.value tu = Transaction.value td) by congruence.
    assert (Transaction.value tu = Transaction.value te) by congruence.
    repeat split; congruence.
Qed.

Lemma C10_gas_price_paths_witness :
  exists tu td te,
    snd (@upgrade reference_env sample_owner (Some [ArgInt 5]) (Some 0)
           (Some 5000000) None "T" 1 sample_deployed) = Ok tu /\
    snd (@deploy reference_env sample_owner (Some [ArgInt 5]) (Some 0)
           (Some 5000000) None "T" 1 sample_deployed) = Ok td /\
    snd (@execute reference_env sample_owner "add" (Some [ArgInt 5]) (Some 0)
           (Some 5000000) None "T" 1 sample_deployed) = Ok te /\
    Transaction.gasPrice tu = 1000000000 /\
    Some 0 = Some (Transaction.gasPrice td) /\
    Some 0 = Some (Transaction.gasPrice te) /\
    Transaction.nonce tu = Transaction.nonce td /\
    Transaction.gasLimit tu = Transaction.gasLimit te.
Proof.
  pose proof (C10_gas_price_paths reference_env sample_owner "add"
                (Some [ArgInt 5]) (Some 0) (Some 5000000) None "T" 1
                sample_deployed) as H.
  cbv zeta in H. destruct H as (Hu & Hd & He & _ & Hs).
  revert Hu Hd He Hs.
  destruct (snd (@upgrade reference_env sample_owner (Some [ArgInt 5]) (Some 0)
                   (Some 5000000) None "T" 1 sample_deployed))
    as [tu | e] eqn:Eu; [| vm_compute in Eu; discriminate Eu].
  destruct (snd (@deploy reference_env sample_owner (Some [ArgInt 5]) (Some 0)
                   (Some 5000000) None "T" 1 sample_deployed))
    as [td | e] eqn:Ed; [| vm_compute in Ed; discriminate Ed].
  destruct (snd (@execute reference_env sample_owner "add" (Some [ArgInt 5])
                   (Some 0) (Some 5000000) None "T" 1 sample_deployed))
    as [te | e] eqn:Ee; [| vm_compute in Ee; discriminate Ee].
  intros Hu Hd He Hs. exists tu, td, te.
  destruct (Hs tu td te eq_refl eq_refl eq_refl)
    as (Hn & _ & _ & _ & _ & _ & _ & Hl & _).
  refine (conj eq_refl (conj eq_refl (conj eq_refl (conj _ (conj _ (conj _
            (conj Hn Hl))))))).
  - exact (proj1 (Hu tu eq_refl) (or_intror eq_refl)).
  - exact (Hd td eq_refl).
  - exact (He te eq_refl).
Defined.

(** C10 as stated fails for [None]: on a deployed contract, [deploy] and
    [execute] do not put the given gas price on a transaction, they
    raise [TypeError], while [upgrade] builds one with the default gas
    price. *)
Lemma C10_none_gas_price_counterexample :
  snd (@deploy reference_env sample_owner (Some [ArgInt 5]) None
         (Some 5000000) None "T" 1 sample_deployed) = Raise TypeError /\
  snd (@execute reference_env sample_owner "add" (Some [ArgInt 5]) None
         (Some 5000000) None "T" 1 sample_deployed) = Raise TypeError /\
  exists tx,
    snd (@upgrade reference_env sample_owner (Some [ArgInt 5]) None
           (Some 5000000) None "T" 1 sample_deployed) = Ok tx /\
    Transaction.gasPrice tx = 1000000000.
Proof.
  split; [vm_compute; reflexivity |]. split; [vm_compute; reflexivity |].
  eexists. split; [vm_compute; reflexivity | reflexivity].
Qed.

(* ================================================================= *)
(** * Further properties of the code *)

(** ** The data strings *)

Lemma append_arguments_joined (arguments : list argument) :
  forall tx_data,
    append_arguments tx_data arguments
    = (encoded <- mapM _prepare_argument arguments ;;
       Ok (tx_data ++ at_joined encoded)%string).
Proof.
  induction arguments as [|arg rest IH]; intros tx_data; simpl.
  - now rewrite append_empty_r.
  - destruct (_prepare_argument arg) as [prepared |]; simpl; [| reflexivity].
    rewrite IH. destruct (mapM _prepare_argument rest); simpl; [| reflexivity].
    now rewrite !append_assoc.
Qed.

(** X1: the data of the three builders is the head of the operation
    followed by [@] and the encoding of each argument, in call order;
    when an argument does not encode, its exception is the result. *)
Theorem X1_data_is_head_and_arguments (env : Environment)
  (self : SmartContract) (function : string) (arguments : list argument) :
  prepare_deploy_transaction_data self arguments
  = (encoded <- mapM _prepare_argument arguments ;;
     Ok (format_bytecode (bytecode self) ++ "@" ++ VM_TYPE_WASM_VM ++ "@"
           ++ to_hex (metadata self) ++ at_joined encoded)%string) /\
  prepare_execute_transaction_data self function arguments
  = (encoded <- mapM _prepare_argument arguments ;;
     Ok (function ++ at_joined encoded)%string) /\
  prepare_upgrade_transaction_data self arguments
  = (encoded <- mapM _prepare_argument arguments ;;
     Ok ("upgradeContract@" ++ format_bytecode (bytecode self) ++ "@"
           ++ to_hex (metadata self) ++ at_joined encoded)%string).
Proof.
  unfold prepare_deploy_transaction_data, prepare_execute_transaction_data,
    prepare_upgrade_transaction_data.
  rewrite !append_arguments_joined.
  refine (conj _ (conj eq_refl _));
    destruct (mapM _prepare_argument arguments); cbn [bind];
    try reflexivity; now rewrite !append_assoc.
Qed.

Lemma mapM_first_failure {A B : Type} (f : A -> result B)
  (good : list A) (bad : A) (rest : list A) (bs : list B) (e : exn) :
  mapM f good = Ok bs ->
  f bad = Raise e ->
  mapM f (good ++ bad :: rest) = Raise e.
Proof.
  revert bs; induction good as [|a good IH]; intros bs Hg Hb; simpl.
  - now rewrite Hb.
  - simpl in Hg. destruct (f a); simpl in *; [| discriminate].
    destruct (mapM f good) as [bs' |]; simpl in *; [| discriminate].
    now rewrite (IH bs' eq_refl Hb).
Qed.

(** X2: the first argument that does not encode aborts the build: when
    the arguments before it encode and it raises, each of the three
    builders raises that same exception and returns no data. *)
Theorem X2_first_malformed_argument_aborts (env : Environment)
  (self : SmartContract) (function : string)
  (good : list argument) (bad : argument) (rest : list argument)
  (encoded : list string) (e : exn) :
  mapM _prepare_argument good = Ok encoded ->
  _prepare_argument bad = Raise e ->
  prepare_deploy_transaction_data self (good ++ bad :: rest) = Raise e /\
  prepare_execute_transaction_data self function (good ++ bad :: rest)
  = Raise e /\
  prepare_upgrade_transaction_data self (good ++ bad :: rest) = Raise e.
Proof.
  intros Hg Hb.
  unfold prepare_deploy_transaction_data, prepare_execute_transaction_data,
    prepare_upgrade_transaction_data.
  rewrite !append_arguments_joined.
  rewrite (mapM_first_failure _ good bad rest encoded e Hg Hb).
  repeat split.
Qed.

Lemma X2_first_malformed_argument_aborts_witness :
  @prepare_deploy_transaction_data reference_env sample_contract
    ([ArgInt 5] ++ ArgStr "five" :: [ArgStr "0xZZ"])
  = Raise (UnknownArgumentFormat "FIVE") /\
  prepare_execute_transaction_data sample_contract "add"
    ([ArgInt 5] ++ ArgStr "five" :: [ArgStr "0xZZ"])
  = Raise (UnknownArgumentFormat "FIVE") /\
  prepare_upgrade_transaction_data sample_contract
    ([ArgInt 5] ++ ArgStr "five" :: [ArgStr "0xZZ"])
  = Raise (UnknownArgumentFormat "FIVE").
Proof.
  exact (X2_first_malformed_argument_aborts reference_env sample_contract
           "add" [ArgInt 5] (ArgStr "five") [ArgStr "0xZZ"] ["05"]
           (UnknownArgumentFormat "FIVE") eq_refl eq_refl).
Defined.

(** ** More on the argument codec *)

(** X3: a negative integer is never encoded.  Down to the 4300 digits
    that [str] accepts, [_prepare_argument] raises
    [UnknownArgumentFormat] with the decimal text of the integer, minus
    sign included; below, the [ValueError] of [str] comes out. *)
Theorem X3_negative_integer_rejected (n : Z) :
  n < 0 ->
  (- 10 ^ Z.of_nat Py.max_str_digits < n ->
   Py.str n = Ok (String "-" (Py.digits 10 (- n))) /\
   _prepare_argument (ArgInt n)
   = Raise (UnknownArgumentFormat (String "-" (Py.digits 10 (- n))))) /\
  (n <= - 10 ^ Z.of_nat Py.max_str_digits ->
   _prepare_argument (ArgInt n) = Raise ValueError).
Proof.
  intros Hn. split; intros Hl.
  - assert (Hs : Py.str n = Ok (String "-" (Py.digits 10 (- n))))
      by (apply str_negative; lia).
    split; [exact Hs |].
    unfold _prepare_argument, str_of_argument. rewrite Hs. cbn [bind].
    assert (Hdec : Py.all_chars Py.is_decimal_char (Py.digits 10 (- n)) = true)
      by (apply digits_all; [lia | apply digit_char_decimal]).
    change (Py.upper (String "-" (Py.digits 10 (- n))))
      with (String "-" (Py.upper (Py.digits 10 (- n)))).
    rewrite (upper_decimal _ Hdec). reflexivity.
  - unfold _prepare_argument, str_of_argument.
    rewrite str_beyond_limit by lia. reflexivity.
Qed.

Lemma X3_negative_integer_rejected_witness :
  Py.str (-42) = Ok "-42" /\
  _prepare_argument (ArgInt (-42)) = Raise (UnknownArgumentFormat "-42").
Proof.
  apply (proj1 (X3_negative_integer_rejected (-42) ltac:(lia))).
  pose proof pow10_limit_positive. lia.
Defined.

Lemma fold_digits_nonneg (base : Z) (s : string) :
  0 <= base -> forall acc, 0 <= acc -> 0 <= fold_digits base s acc.
Proof.
  intros Hb; induction s as [|c s IH]; intros acc Ha; simpl; [assumption |].
  apply IH. pose proof (digit_value_range c). nia.
Qed.

Lemma isnumeric_all_decimal (s : string) :
  Py.isnumeric s = true ->
  s <> "" /\ Py.all_chars Py.is_decimal_char s = true.
Proof.
  unfold Py.isnumeric. destruct s; [discriminate |].
  intros H; split; [discriminate | exact H].
Qed.

Lemma int_decimal_beyond_limit (s : string) :
  (Py.max_str_digits < String.length s)%nat ->
  Py.all_chars (is_digit_of 10) s = true ->
  Py.int s 10 = None.
Proof.
  intros Hlen Hs.
  assert (Hb : 10 <= 36) by lia.
  assert (Hlim : forall n, n = String.length s ->
            (Py.has_digit_limit 10 && Nat.ltb Py.max_str_digits n)%bool = true).
  { intros n ->. apply andb_true_iff; split; [reflexivity |].
    apply Nat.ltb_lt. exact Hlen. }
  destruct s as [|c r]; [simpl in Hlen; lia |].
  pose proof Hs as Hall.
  simpl in Hs; apply andb_true_iff in Hs as [Hc Hr].
  unfold Py.int.
  assert (Hl : Py.lstrip (String c r) = String c r)
    by (simpl; now rewrite (digit_is_no_space c 10 Hb Hc)).
  rewrite Hl, (digit_is_no_sign c 10 r Hb Hc).
  unfold Py.skip_base_prefix.
  rewrite (no_base_prefix 10 _ (or_introl eq_refl) Hall).
  simpl Py.starts_with_underscore.
  rewrite (digit_is_no_underscore c 10 Hb Hc).
  rewrite (scan_digits_all 10 _ Hb Hall) by reflexivity.
  cbn [Nat.add String.length Py.lstrip].
  rewrite (Hlim (S (String.length r)) eq_refl). reflexivity.
Qed.

(** X4: a decimal text of at most 4300 characters is encoded as the
    integer it denotes, so leading zeros of the text do not reach the
    encoding; a longer one is refused by [int] with [ValueError]. *)
Theorem X4_decimal_text_as_integer (s : string) :
  Py.isnumeric s = true ->
  ((String.length s <= Py.max_str_digits)%nat ->
   0 <= fold_digits 10 s 0 /\
   Py.int s 10 = Some (fold_digits 10 s 0) /\
   _prepare_argument (ArgStr s)
   = Ok (ensure_even_length (Py.digits 16 (fold_digits 10 s 0))) /\
   (fold_digits 10 s 0 < 10 ^ Z.of_nat Py.max_str_digits ->
    _prepare_argument (ArgStr s)
    = _prepare_argument (ArgInt (fold_digits 10 s 0)))) /\
  ((Py.max_str_digits < String.length s)%nat ->
   _prepare_argument (ArgStr s) = Raise ValueError).
Proof.
  intros Hnum. pose proof (isnumeric_all_decimal s Hnum) as [Hne Hdec].
  assert (Hdig : Py.all_chars (is_digit_of 10) s = true)
    by apply (all_chars_impl _ _ _ decimal_is_digit Hdec).
  assert (Hpos : 0 <= fold_digits 10 s 0) by (apply fold_digits_nonneg; lia).
  assert (Hpre : _prepare_argument (ArgStr s) = _prepare_decimal s).
  { unfold _prepare_argument, str_of_argument. cbn [bind].
    now rewrite (upper_decimal _ Hdec), (decimal_no_hex_prefix _ Hdec). }
  split; intros Hlen.
  - assert (Hint : Py.int s 10 = Some (fold_digits 10 s 0))
      by (apply int_digits; auto).
    assert (Henc : _prepare_argument (ArgStr s)
                   = Ok (ensure_even_length (Py.digits 16 (fold_digits 10 s 0)))).
    { rewrite Hpre. unfold _prepare_decimal. rewrite Hnum, Hint. cbn [negb].
      unfold Py.hex. destruct (fold_digits 10 s 0 <? 0) eqn:E;
        [apply Z.ltb_lt in E; lia | reflexivity]. }
    refine (conj Hpos (conj Hint (conj Henc _))).
    intros Hlt. rewrite Henc. symmetry. apply prepare_argument_int. lia.
  - rewrite Hpre. unfold _prepare_decimal. rewrite Hnum. cbn [negb].
    now rewrite (int_decimal_beyond_limit s Hlen Hdig).
Qed.

Lemma X4_decimal_text_as_integer_witness :
  Py.int "0042" 10 = Some 42 /\
  _prepare_argument (ArgStr "0042") = Ok "2a".
Proof.
  destruct (X4_decimal_text_as_integer "0042" eq_refl) as [H _].
  destruct (H ltac:(unfold Py.max_str_digits; simpl; lia)) as (_ & H1 & H2 & _).
  exact (conj H1 H2).
Defined.

(** *** What the check of a hex literal lets through *)

Lemma underscore_eq (c : ascii) : Py.is_underscore c = true -> c = "_"%char.
Proof. apply Ascii.eqb_eq. Qed.

Lemma lstrip_chars (P : ascii -> bool) (s : string) :
  (forall c, Py.is_space c = true -> P c = true) ->
  Py.all_chars P (Py.lstrip s) = true -> Py.all_chars P s = true.
Proof.
  intros Hsp; induction s as [|c s IH]; simpl; [trivial |].
  destruct (Py.is_space c) eqn:E.
  - intros H. now rewrite (Hsp c E), (IH H).
  - trivial.
Qed.

Lemma split_sign_chars (P : ascii -> bool) (s s2 : string) (sign : Z) :
  P "+"%char = true -> P "-"%char = true ->
  Py.split_sign s = (sign, s2) ->
  Py.all_chars P s2 = true -> Py.all_chars P s = true.
Proof.
  intros Hplus Hminus. destruct s as [|c r]; unfold Py.split_sign.
  - intros H; injection H as _ <-. trivial.
  - destruct (Ascii.eqb c "+") eqn:E1.
    { apply Ascii.eqb_eq in E1; subst c. intros H; injection H as _ <-.
      intros Hr. simpl. now rewrite Hplus, Hr. }
    destruct (Ascii.eqb c "-") eqn:E2.
    { apply Ascii.eqb_eq in E2; subst c. intros H; injection H as _ <-.
      intros Hr. simpl. now rewrite Hminus, Hr. }
    intros H; injection H as _ <-. trivial.
Qed.

Lemma skip_base_prefix_chars (P : ascii -> bool) (s : string) :
  P "0"%char = true -> P "x"%char = true -> P "X"%char = true ->
  P "_"%char = true ->
  Py.all_chars P (Py.skip_base_prefix 16 s) = true -> Py.all_chars P s = true.
Proof.
  intros H0 Hx HX Hu. unfold Py.skip_base_prefix.
  destruct (Py.has_base_prefix 16 s) eqn:Hp; [| trivial].
  destruct s as [|c0 [|c1 r]]; try discriminate Hp.
  cbn [Py.has_base_prefix] in Hp.
  apply andb_true_iff in Hp as [Hp H1]. apply andb_true_iff in Hp as [_ Hc0].
  apply Ascii.eqb_eq in Hc0; subst c0.
  assert (Hc1 : P c1 = true).
  { apply orb_true_iff in H1 as [H1 | H1]; apply Ascii.eqb_eq in H1;
      subst c1; assumption. }
  cbn [Py.drop Py.all_chars]. rewrite H0, Hc1. cbn [andb].
  destruct r as [|c2 r']; [trivial |].
  destruct (Py.is_underscore c2) eqn:E; [| trivial].
  apply underscore_eq in E; subst c2. intros Hr.
  cbn [Py.all_chars]. now rewrite Hu, Hr.
Qed.

Lemma scan_digits_chars (P : ascii -> bool) (base : Z) :
  (forall c, is_digit_of base c = true -> P c = true) ->
  P "_"%char = true ->
  forall s prev acc nd v nd' rest,
    Py.scan_digits base s prev acc nd = Some (v, nd', rest) ->
    Py.all_chars P rest = true -> Py.all_chars P s = true.
Proof.
  intros Hd Hu; induction s as [|c s IH]; intros prev acc nd v nd' rest; simpl.
  - destruct (Py.is_underscore prev); [discriminate |].
    intros H; injection H as _ _ <-. trivial.
  - destruct (Py.is_underscore c) eqn:E.
    + destruct (Py.is_underscore prev); [discriminate |].
      apply underscore_eq in E; subst c. intros H Hr.
      rewrite Hu. simpl. eapply IH; eassumption.
    + destruct (Py.digit_value c <? base) eqn:D.
      * intros H Hr. rewrite (Hd c D). simpl. eapply IH; eassumption.
      * destruct (Py.is_underscore prev); [discriminate |].
        intros H; injection H as _ _ <-. trivial.
Qed.

Lemma int16_char_of_space (c : ascii) :
  Py.is_space c = true -> is_int16_char c = true.
Proof. unfold is_int16_char; intros ->; reflexivity. Qed.

Lemma int16_char_of_digit (c : ascii) :
  is_digit_of 16 c = true -> is_int16_char c = true.
Proof. unfold is_int16_char; intros ->; apply orb_true_r. Qed.

Lemma int16_char_not_separator (c : ascii) :
  is_int16_char c = true -> is_not_separator c = true.
Proof. all_ascii c; intros H; try reflexivity; discriminate H. Qed.

(** Whatever [int(s, 16)] accepts is made of blanks, signs, underscores,
    the prefix letter and hexadecimal digits. *)
Lemma int16_accepted_chars (s : string) (v : Z) :
  Py.int s 16 = Some v -> Py.all_chars is_int16_char s = true.
Proof.
  unfold Py.int.
  destruct (Py.split_sign (Py.lstrip s)) as [sign s2] eqn:Hs.
  destruct (Py.starts_with_underscore _); [discriminate |].
  destruct (Py.scan_digits 16 _ _ _ _) as [[[v' nd] rest] |] eqn:Hscan;
    [| discriminate].
  destruct nd; [discriminate |].
  destruct (Py.lstrip rest) eqn:Hr; [| discriminate].
  intros _.
  apply lstrip_chars; [exact int16_char_of_space |].
  apply (split_sign_chars _ _ _ _ eq_refl eq_refl Hs).
  apply (skip_base_prefix_chars _ _ eq_refl eq_refl eq_refl eq_refl).
  apply (scan_digits_chars _ 16 int16_char_of_digit eq_refl _ _ _ _ _ _ _ Hscan).
  apply lstrip_chars; [exact int16_char_of_space |].
  now rewrite Hr.
Qed.

Lemma prepare_decimal_numeric (s : string) :
  Py.isnumeric s = true ->
  (String.length s <= Py.max_str_digits)%nat ->
  _prepare_decimal s
  = Ok (ensure_even_length (Py.digits 16 (fold_digits 10 s 0))).
Proof.
  intros Hnum Hlen. pose proof (isnumeric_all_decimal s Hnum) as [Hne Hdec].
  unfold _prepare_decimal. rewrite Hnum. cbn [negb].
  rewrite (int_digits 10 s); auto.
  - unfold Py.hex.
    destruct (fold_digits 10 s 0 <? 0) eqn:E; [| reflexivity].
    apply Z.ltb_lt in E.
    pose proof (fold_digits_nonneg 10 s ltac:(lia) 0 ltac:(lia)). lia.
  - apply (all_chars_impl _ _ _ decimal_is_digit Hdec).
Qed.

(** X5: the encoding of an ASCII argument never contains the separator
    [@]: whatever [_prepare_argument] returns for it is made of
    hexadecimal digits and, at most, the blanks, signs, underscores and
    prefix letter that the check of a hex literal lets through. *)
Theorem X5_encoded_argument_has_no_separator (a : argument) (s : string) :
  is_ascii_argument a = true ->
  _prepare_argument a = Ok s ->
  Py.all_chars is_int16_char s = true /\
  Py.all_chars is_not_separator s = true.
Proof.
  intros _ H.
  assert (Hc : Py.all_chars is_int16_char s = true).
  { unfold _prepare_argument in H.
    destruct (str_of_argument a) as [text |]; cbn [bind] in H;
      [| discriminate].
    destruct (Py.startswith _ HEX_PREFIX).
    - unfold _prepare_hexadecimal in H. cbv zeta in H.
      destruct (Py.int _ 16) as [v |] eqn:Hi; [| discriminate].
      injection H as <-. exact (int16_accepted_chars _ v Hi).
    - destruct (Py.isnumeric (Py.upper text)) eqn:Hn.
      + destruct (Nat.leb_spec (String.length (Py.upper text))
                    Py.max_str_digits) as [Hlen | Hlen].
        * rewrite (prepare_decimal_numeric _ Hn Hlen) in H. injection H as <-.
          apply (all_chars_impl _ _ _ int16_char_of_digit).
          apply ensure_even_length_digits.
          apply digits_all; [lia | apply digit_char_is_hex].
        * unfold _prepare_decimal in H. rewrite Hn in H. cbn [negb] in H.
          rewrite (int_decimal_beyond_limit _ Hlen) in H; [discriminate |].
          apply (all_chars_impl _ _ _ decimal_is_digit).
          exact (proj2 (isnumeric_all_decimal _ Hn)).
      + unfold _prepare_decimal in H. rewrite Hn in H. discriminate H. }
  split; [exact Hc |].
  exact (all_chars_impl _ _ _ int16_char_not_separator Hc).
Qed.

Lemma X5_encoded_argument_has_no_separator_witness :
  Py.all_chars is_int16_char "0F_F" = true /\
  Py.all_chars is_not_separator "0F_F" = true.
Proof.
  exact (X5_encoded_argument_has_no_separator (ArgStr "0xf_f") "0F_F"
           eq_refl eq_refl).
Defined.

(** ** From a query result back to an argument *)

Lemma hex_length (bs : list byte) :
  String.length (Bytes.hex bs) = (2 * List.length bs)%nat.
Proof.
  induction bs as [|b bs IH]; [reflexivity |].
  cbn [Bytes.hex String.length List.length]. rewrite IH. lia.
Qed.

Lemma fold_digits_upper (base : Z) (s : string) :
  forall acc, fold_digits base (Py.upper s) acc = fold_digits base s acc.
Proof.
  unfold Py.upper; induction s as [|c s IH]; intros acc; simpl; [reflexivity |].
  now rewrite digit_value_upper_char, IH.
Qed.

(** What there is to know when [_interpret_return_data] gives a result. *)
Lemma interpret_result_inv (data : pyval) (q : QueryResult)
  (log : list log_record) :
  _interpret_return_data data = (PyQueryResult q, log) ->
  exists as_bytes,
    as_bytes <> [] /\
    data = PyStr (base64 q) /\
    Base64.b64decode (base64 q) = Some as_bytes /\
    hex q = Bytes.hex as_bytes /\
    number q = Bytes.big_endian_value as_bytes /\
    log = [].
Proof.
  unfold _interpret_return_data.
  destruct (truthy data) eqn:Ht; cbn [negb].
  - destruct data as [| s | | | |]; try discriminate.
    destruct (Base64.b64decode s) as [as_bytes |] eqn:Hd; [| discriminate].
    rewrite int_hex.
    destruct as_bytes as [|b bs]; [discriminate |].
    intros H; injection H as <- <-. exists (b :: bs).
    cbn [base64 hex number]. repeat split; try assumption. discriminate.
  - intros H; injection H as -> _. discriminate Ht.
Qed.

(** X6: the [hex] of a query result can be handed back as an argument:
    with the prefix in front it is accepted, the encoding is the same
    digits in upper case, of the same length, and denotes the [number]
    of the result. *)
Theorem X6_query_hex_as_argument (data : pyval) (q : QueryResult)
  (log : list log_record) :
  _interpret_return_data data = (PyQueryResult q, log) ->
  _prepare_argument (ArgStr ("0x" ++ hex q)) = Ok (Py.upper (hex q)) /\
  decodeHex (Py.upper (hex q)) = Some (number q) /\
  String.length (Py.upper (hex q)) = String.length (hex q) /\
  Nat.even (String.length (hex q)) = true.
Proof.
  intros H.
  destruct (interpret_result_inv data q log H)
    as (as_bytes & Hne & _ & _ & Hhex & Hnum & _).
  assert (Heven : Nat.even (String.length (hex q)) = true).
  { rewrite Hhex, hex_length, Nat.even_mul. reflexivity. }
  assert (Hall : Py.all_chars (is_digit_of 16) (hex q) = true)
    by (rewrite Hhex; apply hex_all_digits).
  assert (Hq : hex q <> "") by (rewrite Hhex; now apply hex_not_empty).
  refine (conj _ (conj _ (conj (upper_length _) Heven))).
  - rewrite (prepare_argument_hex "0x" (hex q)); [| now left |].
    + now rewrite ensure_even_length_of_even by (now rewrite upper_length).
    + unfold is_hex_string. destruct (hex q); [congruence | exact Hall].
  - rewrite decodeHex_digits.
    + now rewrite fold_digits_upper, Hhex, hex_value, Hnum.
    + destruct (hex q); [congruence | discriminate].
    + now rewrite upper_keeps_digits.
Qed.

Lemma X6_query_hex_as_argument_witness :
  _prepare_argument (ArgStr ("0x" ++ "0aff")) = Ok (Py.upper "0aff") /\
  decodeHex (Py.upper "0aff") = Some 2815 /\
  String.length (Py.upper "0aff") = String.length "0aff" /\
  Nat.even (String.length "0aff") = true.
Proof.
  exact (X6_query_hex_as_argument (PyStr "Cv8=")
           (mkQueryResult "Cv8=" "0aff" 2815) [] eq_refl).
Defined.

(** ** The builders: state, failures and the signer *)

Lemma int_to_bytes_little_overflow (n : Z) (length : nat) :
  n < 0 \/ 256 ^ Z.of_nat length <= n ->
  Bytes.int_to_bytes_little n length = Raise OverflowError.
Proof.
  intros H. unfold Bytes.int_to_bytes_little.
  destruct (n <? 0) eqn:E0; [reflexivity |].
  destruct (256 ^ Z.of_nat length <=? n) eqn:E1; [reflexivity |].
  apply Z.ltb_ge in E0. apply Z.leb_gt in E1. lia.
Qed.

(** X7: when the owner's nonce does not fit 8 bytes (it is negative or
    at least 2^64), [deploy] raises [OverflowError]; the owner has been
    recorded on the contract, its address is untouched and no
    transaction is built or signed. *)
Theorem X7_deploy_nonce_out_of_range (env : Environment)
  (owner_account : Account.t) (arguments : option (list argument))
  (gas_price gas_limit value : option Z) (chain : string) (version : Z)
  (self : SmartContract) :
  Account.nonce owner_account < 0 \/ 2 ^ 64 <= Account.nonce owner_account ->
  deploy owner_account arguments gas_price gas_limit value chain version self
  = (set_owner self owner_account, Raise OverflowError) /\
  address (set_owner self owner_account) = address self.
Proof.
  intros Hn. split; [| reflexivity].
  rewrite deploy_steps. cbv zeta. unfold compute_address_bytes.
  rewrite int_to_bytes_little_overflow by exact Hn. reflexivity.
Qed.

Lemma X7_deploy_nonce_out_of_range_witness :
  @deploy reference_env (Account.mk (Address.mk (repeat x01 32)) (2 ^ 64))
    (Some [ArgInt 5]) (Some 1) (Some 2) None "T" 1 sample_contract
  = (set_owner sample_contract
       (Account.mk (Address.mk (repeat x01 32)) (2 ^ 64)),
     Raise OverflowError) /\
  address (set_owner sample_contract
             (Account.mk (Address.mk (repeat x01 32)) (2 ^ 64)))
  = address sample_contract.
Proof.
  apply (X7_deploy_nonce_out_of_range reference_env
           (Account.mk (Address.mk (repeat x01 32)) (2 ^ 64))).
  right. cbn [Account.nonce]. lia.
Defined.

Section BuilderEffects.

Context {env : Environment}.

Variables (account : Account.t) (function : string).
Variables (arguments : option (list argument)).
Variables (gas_price gas_limit value : option Z).
Variables (chain : string) (version : Z) (self : SmartContract).

Lemma execute_state :
  fst (execute account function arguments gas_price gas_limit value
         chain version self)
  = set_caller self account.
Proof.
  rewrite execute_steps. cbv zeta.
  destruct (int_of gas_price); [| reflexivity].
  destruct (int_of gas_limit); [| reflexivity].
  destruct (Py.str _); [| reflexivity].
  destruct (Address_bech32 (Account.address account)); [| reflexivity].
  destruct (Address_bech32 (address self)); [| reflexivity].
  destruct (prepare_execute_transaction_data _ _ _); [| reflexivity].
  destruct (sign_transaction _ _); reflexivity.
Qed.

Lemma upgrade_state :
  fst (upgrade account arguments gas_price gas_limit value chain version self)
  = set_owner self account.
Proof.
  rewrite upgrade_steps. cbv zeta.
  destruct (int_of gas_limit); [| reflexivity].
  destruct (Py.str _); [| reflexivity].
  destruct (Address_bech32 (Account.address account)); [| reflexivity].
  destruct (Address_bech32 (address self)); [| reflexivity].
  destruct (prepare_upgrade_transaction_data _ _); [| reflexivity].
  destruct (sign_transaction _ _); reflexivity.
Qed.

Lemma deploy_state (a : list byte) :
  compute_address_bytes (Address.pubkey (Account.address account))
    (Account.nonce account) = Ok a ->
  fst (deploy account arguments gas_price gas_limit value chain version self)
  = set_address (set_owner self account) (Address.mk a).
Proof.
  intros Ha. rewrite deploy_steps. cbv zeta. rewrite Ha.
  destruct (int_of gas_price); [| reflexivity].
  destruct (int_of gas_limit); [| reflexivity].
  destruct (Py.str _); [| reflexivity].
  destruct (Address_bech32 _); [| reflexivity].
  destruct (prepare_deploy_transaction_data _ _); [| reflexivity].
  destruct (sign_transaction _ _); reflexivity.
Qed.

End BuilderEffects.

(** X9: [execute] and [upgrade] never touch the identity of the
    contract: whatever their outcome, the contract afterwards differs
    from the one before only in [caller] (for [execute]) or [owner]
    (for [upgrade]); address, bytecode and metadata are the same. *)
Theorem X9_execute_and_upgrade_keep_identity (env : Environment)
  (account : Account.t) (function : string)
  (arguments : option (list argument))
  (gas_price gas_limit value : option Z) (chain : string) (version : Z)
  (self : SmartContract) :
  let after_execute :=
    fst (execute account function arguments gas_price gas_limit value
           chain version self) in
  let after_upgrade :=
    fst (upgrade account arguments gas_price gas_limit value
           chain version self) in
  after_execute = set_caller self account /\
  after_upgrade = set_owner self account /\
  address after_execute = address self /\
  bytecode after_execute = bytecode self /\
  metadata after_execute = metadata self /\
  owner after_execute = owner self /\
  address after_upgrade = address self /\
  bytecode after_upgrade = bytecode self /\
  metadata after_upgrade = metadata self /\
  caller after_upgrade = caller self.
Proof.
  cbv zeta. rewrite execute_state, upgrade_state. repeat split.
Qed.

(** X10: [deploy] overwrites the address of the contract before it
    looks at the gas parameters and the arguments: for a 32-byte owner
    key and a nonce that fits 8 bytes, the contract afterwards has the
    owner as its [owner] and the derived bytes as its [address], with
    bytecode and metadata as before, whatever the outcome, also when
    [deploy] raises. *)
Theorem X10_deploy_sets_address_before_failing (env : Environment)
  (owner_account : Account.t) (arguments : option (list argument))
  (gas_price gas_limit value : option Z) (chain : string) (version : Z)
  (self : SmartContract) :
  List.length (Address.pubkey (Account.address owner_account)) = 32%nat ->
  0 <= Account.nonce owner_account < 2 ^ 64 ->
  let owner_bytes := Address.pubkey (Account.address owner_account) in
  let nonce_bytes := Bytes.little_endian 8 (Account.nonce owner_account) in
  let a := (repeat x00 8 ++ [x05; x00]
              ++ Bytes.slice 10 30
                   (Keccak.keccak256 (owner_bytes ++ nonce_bytes))
              ++ Bytes.slice 30 32 owner_bytes)%list in
  let after := fst (deploy owner_account arguments gas_price gas_limit value
                      chain version self) in
  address after = Address.mk a /\
  owner after = Some owner_account /\
  bytecode after = bytecode self /\
  metadata after = metadata self /\
  caller after = caller self /\
  (gas_price = None ->
   snd (deploy owner_account arguments gas_price gas_limit value
          chain version self) = Raise TypeError).
Proof.
  intros Hlen Hn. cbv zeta.
  assert (Hs : Bytes.slice 30 32 (Address.pubkey (Account.address owner_account))
               = Bytes.slice_from 30
                   (Address.pubkey (Account.address owner_account)))
    by (rewrite <- Hlen; apply slice_to_end).
  rewrite Hs.
  rewrite (deploy_state _ _ _ _ _ _ _ _ _ (compute_address_bytes_ok _ _ Hn)).
  refine (conj eq_refl (conj eq_refl (conj eq_refl (conj eq_refl
            (conj eq_refl _))))).
  intros Hg. rewrite deploy_steps. cbv zeta.
  rewrite compute_address_bytes_ok by exact Hn. rewrite Hg. reflexivity.
Qed.

Lemma X10_deploy_sets_address_before_failing_witness :
  let after := fst (@deploy reference_env sample_owner (Some [ArgStr "oops"])
                      None None None "T" 1 sample_contract) in
  address after
  = Address.mk (repeat x00 8 ++ [x05; x00]
                  ++ [x87; xd6; xaa; x09; xca; xc9; xea; xb5; x8e; x9d;
                      x7b; x63; xe0; x9f; x1c; x8a; x28; x2e; xb6; x2c]
                  ++ [x02; x03])%list /\
  owner after = Some sample_owner /\
  snd (@deploy reference_env sample_owner (Some [ArgStr "oops"])
         None None None "T" 1 sample_contract) = Raise TypeError.
Proof.
  pose proof (X10_deploy_sets_address_before_failing reference_env
                sample_owner (Some [ArgStr "oops"]) None None None "T" 1
                sample_contract eq_refl
                ltac:(cbn [Account.nonce sample_owner]; lia))
    as H.
  cbv zeta in H. destruct H as (H1 & H2 & _ & _ & _ & H3).
  assert (Ha : (repeat x00 8 ++ [x05; x00]
                  ++ Bytes.slice 10 30
                       (Keccak.keccak256
                          (Address.pubkey (Account.address sample_owner)
                             ++ Bytes.little_endian 8
                                  (Account.nonce sample_owner)))
                  ++ Bytes.slice 30 32
                       (Address.pubkey (Account.address sample_owner)))%list
               = (repeat x00 8 ++ [x05; x00]
                    ++ [x87; xd6; xaa; x09; xca; xc9; xea; xb5; x8e; x9d;
                        x7b; x63; xe0; x9f; x1c; x8a; x28; x2e; xb6; x2c]
                    ++ [x02; x03])%list)
    by (vm_compute; reflexivity).
  rewrite Ha in H1. cbv zeta.
  exact (conj H1 (conj H2 (H3 eq_refl))).
Defined.

(** ** The value field *)

Lemma Ok_inj {A : Type} (x y : A) : Ok x = Ok y -> x = y.
Proof. intros H; injection H as H; exact H. Qed.





(** ** Queries *)

Section Queries.

Context {env : Environment}.

Variables (self : SmartContract) (proxy : IElrondProxy) (function : string).
Variables (arguments : option (list argument)) (value : Z).
Variable caller : option Address.t.

(** The request that [query_detailed] sends for encoded arguments. *)
Lemma query_detailed_request (encoded : list string) (payload : pyval) :
  mapM _prepare_argument (or_nil arguments) = Ok encoded ->
  query_payload self function encoded value caller = Ok payload ->
  query_detailed self proxy function arguments value caller
  = (response <- query_contract proxy payload ;;
     get response "data" (PyDict [])).
Proof. intros H Hp. unfold query_detailed. rewrite H. cbn [bind]. now rewrite Hp. Qed.

(** No request is sent when the payload cannot be built. *)
Lemma query_detailed_no_payload (encoded : list string) (e : exn) :
  mapM _prepare_argument (or_nil arguments) = Ok encoded ->
  query_payload self function encoded value caller = Raise e ->
  query_detailed self proxy function arguments value caller = Raise e.
Proof. intros H Hp. unfold query_detailed. rewrite H. cbn [bind]. now rewrite Hp. Qed.

Lemma query_of_entries (response_data return_data : pyval)
  (entries : list pyval) :
  query_detailed self proxy function arguments value caller
  = Ok response_data ->
  (first <- get response_data "returnData" (PyList []) ;;
   if truthy first then Ok first
   else get response_data "ReturnData" (PyList [])) = Ok return_data ->
  iterate return_data = Ok entries ->
  query self proxy function arguments value caller
  = (Ok (map (fun e => fst (_interpret_return_data e)) entries),
     List.concat (map (fun e => snd (_interpret_return_data e)) entries)).
Proof.
  intros Hq Hr Hi. unfold query. rewrite Hq. cbn [bind].
  rewrite Hr. cbn [bind]. rewrite Hi. now rewrite !map_map.
Qed.

End Queries.

(** X12: a query that fails before or at the proxy raises, with nothing
    logged.  An argument that does not encode aborts it before anything
    else, whatever the proxy would answer; so does a payload that cannot
    be built, and a contract without address is such a case
    ([EmptyAddressError]); and when the payload is built and the proxy
    raises on it, that exception is the result. *)
Theorem X12_query_failures (env : Environment) (self : SmartContract)
  (function : string) (arguments : option (list argument)) (value : Z)
  (caller : option Address.t) (e : exn) :
  (mapM _prepare_argument (or_nil arguments) = Raise e ->
   forall proxy,
     query self proxy function arguments value caller = (Raise e, [])) /\
  (forall encoded,
     mapM _prepare_argument (or_nil arguments) = Ok encoded ->
     (query_payload self function encoded value caller = Raise e ->
      forall proxy,
        query self proxy function arguments value caller = (Raise e, [])) /\
     (Address.pubkey (address self) = [] ->
      forall proxy,
        query self proxy function arguments value caller
        = (Raise EmptyAddressError, [])) /\
     (forall proxy payload,
        query_payload self function encoded value caller = Ok payload ->
        query_contract proxy payload = Raise e ->
        query self proxy function arguments value caller = (Raise e, []))).
Proof.
  split.
  - intros H proxy. unfold query, query_detailed. rewrite H. reflexivity.
  - intros encoded H. refine (conj _ (conj _ _)).
    + intros Hp proxy. unfold query.
      now rewrite (query_detailed_no_payload _ _ _ _ _ _ encoded e H Hp).
    + intros Ha proxy. unfold query.
      rewrite (query_detailed_no_payload _ _ _ _ _ _ encoded
                 EmptyAddressError H); [reflexivity |].
      unfold query_payload, Address_bech32. now rewrite Ha.
    + intros proxy payload Hp Hr. unfold query.
      rewrite (query_detailed_request _ _ _ _ _ _ encoded payload H Hp), Hr.
      reflexivity.
Qed.

Lemma X12_query_failures_witness :
  @query reference_env sample_deployed (sample_proxy [PyStr "AQ=="]) "get"
    (Some [ArgStr "0xZZ"]) 0 None
  = (Raise (UnknownArgumentFormat "ZZ"), []) /\
  @query reference_env sample_contract (sample_proxy [PyStr "AQ=="]) "get"
    (Some [ArgInt 1]) 0 None
  = (Raise EmptyAddressError, []) /\
  @query reference_env sample_deployed
    {| query_contract := fun _ => Raise ValueError |} "get"
    (Some [ArgInt 1]) 0 None
  = (Raise ValueError, []).
Proof.
  assert (He : mapM _prepare_argument (or_nil (Some [ArgInt 1])) = Ok ["01"])
    by (vm_compute; reflexivity).
  refine (conj _ (conj _ _)).
  - apply (proj1 (X12_query_failures reference_env sample_deployed "get"
                    (Some [ArgStr "0xZZ"]) 0 None
                    (UnknownArgumentFormat "ZZ"))).
    vm_compute; reflexivity.
  - apply (proj1 (proj2 (proj2 (X12_query_failures reference_env
                                  sample_contract "get" (Some [ArgInt 1]) 0
                                  None ValueError) ["01"] He))).
    reflexivity.
  - destruct (@query_payload reference_env sample_deployed "get" ["01"] 0 None)
      as [payload | e] eqn:Hp; [| vm_compute in Hp; discriminate Hp].
    apply (proj2 (proj2 (proj2 (X12_query_failures reference_env
                                  sample_deployed "get" (Some [ArgInt 1]) 0
                                  None ValueError) ["01"] He))
             {| query_contract := fun _ => Raise ValueError |} payload Hp).
    reflexivity.
Defined.

(** X13: the return data is read under [returnData] and, when that key
    is missing or holds a falsy value (an empty list, [None]), under
    [ReturnData]: a list found there is interpreted entry by entry, and
    a [None] found there makes the query raise [TypeError]. *)
Theorem X13_return_data_fallback (env : Environment) (self : SmartContract)
  (proxy : IElrondProxy) (function : string)
  (arguments : option (list argument)) (value : Z) (caller : option Address.t)
  (d : list (string * pyval)) :
  query_detailed self proxy function arguments value caller = Ok (PyDict d) ->
  match lookup "returnData" d with
  | Some first => truthy first = false
  | None => True
  end ->
  (forall entries,
     lookup "ReturnData" d = Some (PyList entries) ->
     query self proxy function arguments value caller
     = (Ok (map (fun e => fst (_interpret_return_data e)) entries),
        List.concat (map (fun e => snd (_interpret_return_data e)) entries))) /\
  (lookup "ReturnData" d = Some PyNone ->
   query self proxy function arguments value caller = (Raise TypeError, [])).
Proof.
  intros Hq Hfirst.
  assert (Hsel : forall v,
             lookup "ReturnData" d = Some v ->
             (first <- get (PyDict d) "returnData" (PyList []) ;;
              if truthy first then Ok first
              else get (PyDict d) "ReturnData" (PyList [])) = Ok v).
  { intros v Hv. cbn [get].
    destruct (lookup "returnData" d) as [first |]; cbn [bind].
    - rewrite Hfirst. now rewrite Hv.
    - cbn [truthy]. now rewrite Hv. }
  split.
  - intros entries Hl.
    apply (query_of_entries _ _ _ _ _ _ (PyDict d) (PyList entries));
      auto.
  - intros Hl. unfold query. rewrite Hq. cbn [bind].
    rewrite (Hsel PyNone Hl). reflexivity.
Qed.

Lemma X13_return_data_fallback_witness :
  @query reference_env sample_deployed
    {| query_contract := fun _ =>
         Ok (PyDict [("data", PyDict [("returnData", PyNone);
                                      ("ReturnData", PyList [PyStr "AQ=="])])]) |}
    "get" None 0 None
  = (Ok [PyQueryResult (mkQueryResult "AQ==" "01" 1)], []).
Proof.
  assert (Hd : @query_detailed reference_env sample_deployed
                 {| query_contract := fun _ =>
                      Ok (PyDict [("data",
                                   PyDict [("returnData", PyNone);
                                           ("ReturnData",
                                            PyList [PyStr "AQ=="])])]) |}
                 "get" None 0 None
               = Ok (PyDict [("returnData", PyNone);
                             ("ReturnData", PyList [PyStr "AQ=="])]))
    by (vm_compute; reflexivity).
  exact (proj1 (X13_return_data_fallback reference_env sample_deployed
                  {| query_contract := fun _ =>
                       Ok (PyDict [("data",
                                    PyDict [("returnData", PyNone);
                                            ("ReturnData",
                                             PyList [PyStr "AQ=="])])]) |}
                  "get" None 0 None
                  [("returnData", PyNone); ("ReturnData", PyList [PyStr "AQ=="])]
                  Hd eq_refl)
           [PyStr "AQ=="] eq_refl).
Defined.

(** X14: a query always has a list to return when the answer has
    nothing to offer: when the arguments encode, the payload is built
    (the contract has an address) and the proxy answers it with a dict
    without [data], or with a [data] dict that has neither [returnData]
    nor [ReturnData], the result is the empty list and nothing is
    logged. *)
Theorem X14_query_without_return_data (env : Environment)
  (self : SmartContract) (proxy : IElrondProxy) (function : string)
  (arguments : option (list argument)) (value : Z) (caller : option Address.t)
  (encoded : list string) (payload : pyval)
  (response : list (string * pyval)) :
  mapM _prepare_argument (or_nil arguments) = Ok encoded ->
  query_payload self function encoded value caller = Ok payload ->
  query_contract proxy payload = Ok (PyDict response) ->
  match lookup "data" response with
  | None => True
  | Some (PyDict d) =>
      lookup "returnData" d = None /\ lookup "ReturnData" d = None
  | Some _ => False
  end ->
  Address.pubkey (address self) <> [] /\
  query self proxy function arguments value caller = (Ok [], []).
Proof.
  intros Henc Hpay Hp Hdata. split.
  { unfold query_payload, Address_bech32 in Hpay.
    destruct (Address.pubkey (address self)); [discriminate Hpay |].
    discriminate. }
  unfold query.
  rewrite (query_detailed_request _ _ _ _ _ _ encoded payload Henc Hpay), Hp.
  cbn [bind get].
  destruct (lookup "data" response) as [[| | | | d |] |]; try contradiction.
  - destruct Hdata as [H1 H2]. cbn [bind get]. rewrite H1. cbn [bind truthy].
    rewrite H2. reflexivity.
  - reflexivity.
Qed.

Lemma X14_query_without_return_data_witness :
  @query reference_env sample_deployed
    {| query_contract := fun _ => Ok (PyDict [("error", PyStr "")]) |}
    "get" (Some [ArgInt 1]) 0 None
  = (Ok [], []).
Proof.
  assert (He : mapM _prepare_argument (or_nil (Some [ArgInt 1])) = Ok ["01"])
    by (vm_compute; reflexivity).
  destruct (@query_payload reference_env sample_deployed "get" ["01"] 0 None)
    as [payload | e] eqn:Hp; [| vm_compute in Hp; discriminate Hp].
  exact (proj2 (X14_query_without_return_data reference_env sample_deployed
                  {| query_contract := fun _ => Ok (PyDict [("error", PyStr "")]) |}
                  "get" (Some [ArgInt 1]) 0 None ["01"] payload
                  [("error", PyStr "")] He Hp eq_refl I)).
Defined.

(** *** What is logged and what is returned *)

Lemma interpret_cases (e : pyval) :
  _interpret_return_data e
  = if negb (truthy e) then (e, [])
    else if decodes_to_bytes e then
           match e with
           | PyStr s =>
               match Base64.b64decode s with
               | Some as_bytes =>
                   (PyQueryResult
                      (mkQueryResult s (Bytes.hex as_bytes)
                         (Bytes.big_endian_value as_bytes)), [])
               | None => (PyNone, [Warn_cannot_interpret e])
               end
           | _ => (PyNone, [Warn_cannot_interpret e])
           end
         else (PyNone, [Warn_cannot_interpret e]).
Proof.
  unfold _interpret_return_data, decodes_to_bytes.
  destruct (truthy e); cbn [negb]; [| reflexivity].
  destruct e as [| s | | | |]; try reflexivity.
  destruct (Base64.b64decode s) as [[|b bs] |]; try reflexivity.
  now rewrite int_hex.
Qed.

Lemma interpret_log (e : pyval) :
  snd (_interpret_return_data e)
  = if uninterpreted e then [Warn_cannot_interpret e] else [].
Proof.
  rewrite interpret_cases. unfold uninterpreted.
  destruct (truthy e); cbn [negb andb]; [| reflexivity].
  destruct (decodes_to_bytes e) eqn:Hd; cbn [negb]; [| reflexivity].
  unfold decodes_to_bytes in Hd.
  destruct e as [| s | | | |]; try discriminate.
  destruct (Base64.b64decode s); [reflexivity | discriminate].
Qed.

Lemma log_of_entries (entries : list pyval) :
  List.concat (map (fun e => snd (_interpret_return_data e)) entries)
  = map Warn_cannot_interpret (filter uninterpreted entries).
Proof.
  induction entries as [|e es IH]; [reflexivity |].
  cbn [map List.concat filter]. rewrite IH, interpret_log.
  destruct (uninterpreted e); reflexivity.
Qed.

(** X15: the log of a query names exactly the entries that were lost:
    for a non-empty return-data list, what [query] logs is one warning,
    in order, for each entry that is not empty and does not decode to at
    least one byte; an empty entry is returned as it is and logs
    nothing, and so does an entry that is interpreted. *)
Theorem X15_query_log_names_lost_entries (env : Environment)
  (self : SmartContract) (proxy : IElrondProxy) (function : string)
  (arguments : option (list argument)) (value : Z) (caller : option Address.t)
  (d : list (string * pyval)) (entries : list pyval) :
  query_detailed self proxy function arguments value caller = Ok (PyDict d) ->
  lookup "returnData" d = Some (PyList entries) ->
  entries <> [] ->
  snd (query self proxy function arguments value caller)
  = map Warn_cannot_interpret (filter uninterpreted entries) /\
  forall e, In e entries -> truthy e = false ->
    _interpret_return_data e = (e, []).
Proof.
  intros Hq Hl Hne. split.
  - rewrite (query_of_return_data env _ _ _ _ _ _ d entries Hq Hl Hne).
    cbn [snd]. apply log_of_entries.
  - intros e _ Ht. rewrite interpret_cases, Ht. reflexivity.
Qed.

Lemma X15_query_log_names_lost_entries_witness :
  snd (@query reference_env sample_deployed
         (sample_proxy [PyStr "A"; PyStr ""; PyStr "AQ=="; PyInt 7; PyNone])
         "get" None 0 None)
  = [Warn_cannot_interpret (PyStr "A"); Warn_cannot_interpret (PyInt 7)].
Proof.
  assert (Hd : @query_detailed reference_env sample_deployed
                 (sample_proxy
                    [PyStr "A"; PyStr ""; PyStr "AQ=="; PyInt 7; PyNone])
                 "get" None 0 None
               = Ok (PyDict
                       [("returnData",
                         PyList [PyStr "A"; PyStr ""; PyStr "AQ=="; PyInt 7;
                                 PyNone])]))
    by (vm_compute; reflexivity).
  exact (proj1 (X15_query_log_names_lost_entries reference_env sample_deployed
                  (sample_proxy
                     [PyStr "A"; PyStr ""; PyStr "AQ=="; PyInt 7; PyNone])
                  "get" None 0 None
                  [("returnData",
                    PyList [PyStr "A"; PyStr ""; PyStr "AQ=="; PyInt 7; PyNone])]
                  [PyStr "A"; PyStr ""; PyStr "AQ=="; PyInt 7; PyNone]
                  Hd eq_refl ltac:(discriminate))).
Defined.

(** X16: an entry that is not empty but decodes to no byte at all (only
    padding, or only characters outside the alphabet) is not read as the
    number 0: it is reported as [None], with a warning. *)
Theorem X16_entry_without_bytes_is_lost (s : string) :
  s <> "" ->
  Base64.b64decode s = Some [] ->
  _interpret_return_data (PyStr s)
  = (PyNone, [Warn_cannot_interpret (PyStr s)]).
Proof.
  intros Hne Hd. rewrite interpret_cases. unfold decodes_to_bytes.
  rewrite Hd. destruct s; [congruence | reflexivity].
Qed.

Lemma X16_entry_without_bytes_is_lost_witness :
  _interpret_return_data (PyStr "====")
  = (PyNone, [Warn_cannot_interpret (PyStr "====")]).
Proof.
  apply X16_entry_without_bytes_is_lost; [discriminate | reflexivity].
Defined.

Lemma big_endian_bound (bs : list byte) :
  forall acc, 0 <= acc ->
    0 <= fold_left (fun a b => a * 256 + Bytes.to_Z b) bs acc
    < (acc + 1) * 256 ^ Z.of_nat (List.length bs).
Proof.
  induction bs as [|b bs IH]; intros acc Ha.
  - simpl. lia.
  - pose proof (to_Z_range b) as Hb.
    cbn [fold_left List.length]. rewrite Nat2Z.inj_succ, Z.pow_succ_r by lia.
    specialize (IH (acc * 256 + Bytes.to_Z b) ltac:(lia)).
    split; [lia |].
    eapply Z.lt_le_trans; [apply IH |].
    assert (0 <= 256 ^ Z.of_nat (List.length bs)) by (apply Z.pow_nonneg; lia).
    nia.
Qed.

Lemma digit_char_lower_hex (d : Z) :
  0 <= d < 16 -> is_lower_hex_char (Py.digit_char d) = true.
Proof. intros H; each_digit d H; reflexivity. Qed.

Lemma hex_all_lower (bs : list byte) :
  Py.all_chars is_lower_hex_char (Bytes.hex bs) = true.
Proof.
  induction bs as [|b bs IH]; [reflexivity |].
  pose proof (to_Z_range b) as Hb.
  cbn [Bytes.hex Py.all_chars].
  rewrite !digit_char_lower_hex, IH; [reflexivity | |].
  - apply Z.mod_pos_bound; lia.
  - split; [apply Z.div_pos; lia | apply Z.div_lt_upper_bound; lia].
Qed.

(** X17: the three fields of a query result fit together in size: [hex]
    has two digits per decoded byte, all of them decimal digits or
    lowercase letters [a] to [f], and [number] is non-negative and below
    256 to the number of bytes. *)
Theorem X17_query_result_sizes (data : pyval) (q : QueryResult)
  (log : list log_record) :
  _interpret_return_data data = (PyQueryResult q, log) ->
  exists as_bytes,
    Base64.b64decode (base64 q) = Some as_bytes /\
    String.length (hex q) = (2 * List.length as_bytes)%nat /\
    Py.all_chars is_lower_hex_char (hex q) = true /\
    0 <= number q < 256 ^ Z.of_nat (List.length as_bytes).
Proof.
  intros H.
  destruct (interpret_result_inv data q log H)
    as (as_bytes & _ & _ & Hd & Hhex & Hnum & _).
  exists as_bytes. rewrite Hhex, Hnum.
  refine (conj Hd (conj (hex_length _) (conj (hex_all_lower _) _))).
  pose proof (big_endian_bound as_bytes 0 ltac:(lia)) as Hb.
  unfold Bytes.big_endian_value. lia.
Qed.

Lemma X17_query_result_sizes_witness :
  exists as_bytes,
    Base64.b64decode "AAE=" = Some as_bytes /\
    String.length "0001" = (2 * List.length as_bytes)%nat /\
    Py.all_chars is_lower_hex_char "0001" = true /\
    0 <= 1 < 256 ^ Z.of_nat (List.length as_bytes).
Proof.
  exact (X17_query_result_sizes (PyStr "AAE=")
           (mkQueryResult "AAE=" "0001" 1) [] eq_refl).
Defined.

(** ** Padding and metadata *)

(** X18: [ensure_even_length] adds at most one character and is
    idempotent: the result has an even length, it is the string itself
    or the string after one [0], and padding it again changes nothing. *)
Theorem X18_ensure_even_length_pads_once (s : string) :
  Nat.even (String.length (ensure_even_length s)) = true /\
  (ensure_even_length s = s \/ ensure_even_length s = String "0" s) /\
  (String.length s <= String.length (ensure_even_length s)
   <= S (String.length s))%nat /\
  ensure_even_length (ensure_even_length s) = ensure_even_length s.
Proof.
  refine (conj (ensure_even_length_even s) (conj _ (conj _ _))).
  - unfold ensure_even_length. destruct (Nat.eqb _ 1); auto.
  - unfold ensure_even_length. destruct (Nat.eqb _ 1); cbn [String.length]; lia.
  - apply ensure_even_length_of_even, ensure_even_length_even.
Qed.

(** X19: the metadata can be read back from its encoding: two metadata
    with the same [to_hex] have the same flags. *)
Theorem X19_to_hex_injective (m1 m2 : CodeMetadata) :
  to_hex m1 = to_hex m2 -> m1 = m2.
Proof.
  destruct m1 as [[] []], m2 as [[] []]; intros H;
    first [reflexivity | discriminate H].
Qed.

Lemma X19_to_hex_injective_witness :
  mkCodeMetadata true false = CodeMetadata_default.
Proof. apply X19_to_hex_injective. reflexivity. Defined.

(** ** Addresses of different owners *)

Lemma computed_address_tail (owner_bytes : list byte) (owner_nonce : Z)
  (a : list byte) :
  List.length owner_bytes = 32%nat ->
  compute_address_bytes owner_bytes owner_nonce = Ok a ->
  List.length a = 32%nat /\
  Bytes.slice 30 32 a = Bytes.slice 30 32 owner_bytes /\
  Bytes.slice 0 10 a = (repeat x00 8 ++ [x05; x00])%list.
Proof.
  intros Hlen. unfold compute_address_bytes.
  destruct (Bytes.int_to_bytes_little owner_nonce 8) as [nonce_bytes |];
    cbn [bind]; [| discriminate].
  intros H; apply Ok_inj in H; subst a.
  set (digest := Keccak.keccak256 (owner_bytes ++ nonce_bytes)).
  assert (Hd : List.length digest = 32%nat) by apply keccak256_length.
  assert (Hm : List.length (Bytes.slice 10 30 digest) = 20%nat)
    by (apply slice_length; lia).
  assert (Ht : List.length (Bytes.slice_from 30 owner_bytes) = 2%nat)
    by (unfold Bytes.slice_from; rewrite length_skipn; lia).
  assert (Hs : Bytes.slice 30 32 owner_bytes = Bytes.slice_from 30 owner_bytes)
    by (rewrite <- Hlen; apply slice_to_end).
  refine (conj _ (conj _ eq_refl)).
  - rewrite !length_app, Hm, Ht. reflexivity.
  - rewrite Hs. unfold Bytes.slice at 1.
    rewrite !app_assoc, skipn_app.
    rewrite skipn_all2 by (rewrite !length_app, Hm; simpl; lia).
    rewrite !length_app, Hm. simpl List.length. simpl Nat.sub. simpl skipn.
    apply firstn_all2. rewrite Ht. lia.
Qed.

(** X20: contracts of owners in different shards never share an
    address: when the last two bytes of two 32-byte owner keys differ,
    the addresses derived for them differ, whatever the nonces; and
    every derived address starts with the same ten bytes. *)
Theorem X20_addresses_of_different_shards_differ
  (owner1 owner2 : list byte) (nonce1 nonce2 : Z) (a1 a2 : list byte) :
  List.length owner1 = 32%nat ->
  List.length owner2 = 32%nat ->
  compute_address_bytes owner1 nonce1 = Ok a1 ->
  compute_address_bytes owner2 nonce2 = Ok a2 ->
  (Bytes.slice 30 32 owner1 <> Bytes.slice 30 32 owner2 -> a1 <> a2) /\
  Bytes.slice 0 10 a1 = Bytes.slice 0 10 a2.
Proof.
  intros H1 H2 Ha1 Ha2.
  destruct (computed_address_tail owner1 nonce1 a1 H1 Ha1) as (_ & T1 & P1).
  destruct (computed_address_tail owner2 nonce2 a2 H2 Ha2) as (_ & T2 & P2).
  split; [| congruence].
  intros Hne Heq. apply Hne. rewrite <- T1, <- T2, Heq. reflexivity.
Qed.

Lemma X20_addresses_of_different_shards_differ_witness :
  exists a1 a2,
    compute_address_bytes (repeat x01 32) 7 = Ok a1 /\
    compute_address_bytes (repeat x01 30 ++ [x02; x03]) 7 = Ok a2 /\
    a1 <> a2.
Proof.
  destruct (compute_address_bytes (repeat x01 32) 7) as [a1 | e] eqn:E1;
    [| vm_compute in E1; discriminate E1].
  destruct (compute_address_bytes (repeat x01 30 ++ [x02; x03]) 7)
    as [a2 | e] eqn:E2; [| vm_compute in E2; discriminate E2].
  exists a1, a2. split; [reflexivity |]. split; [reflexivity |].
  apply (X20_addresses_of_different_shards_differ
           (repeat x01 32) (repeat x01 30 ++ [x02; x03]) 7 7 a1 a2
           eq_refl eq_refl E1 E2).
  discriminate.
Defined.

(* ================================================================= *)
(** * The Cargo manifest *)

Lemma lookup_update_same (key : string) (value : pyval)
  (d : list (string * pyval)) :
  lookup key (Cargo.update key value d) = Some value.
Proof.
  induction d as [|[k v] d IH]; simpl.
  - now rewrite String.eqb_refl.
  - destruct (String.eqb k key) eqn:E; simpl; rewrite E; [reflexivity | exact IH].
Qed.

Lemma lookup_update_other (key key' : string) (value : pyval)
  (d : list (string * pyval)) :
  key' <> key ->
  lookup key' (Cargo.update key value d) = lookup key' d.
Proof.
  intros Hne. induction d as [|[k v] d IH]; simpl.
  - destruct (String.eqb_spec key key'); [congruence | reflexivity].
  - destruct (String.eqb_spec k key) as [-> | Hk]; simpl.
    + destruct (String.eqb_spec key key'); [congruence | reflexivity].
    + destruct (String.eqb k key'); [reflexivity | exact IH].
Qed.

(** The shape of a manifest after a successful [package_name] setter. *)
Lemma set_package_name_inv (self self' : Cargo.CargoFile) (value : pyval) :
  Cargo.set_package_name self value = inr self' ->
  exists d package,
    Cargo.data self = PyDict d /\
    lookup "package" d = Some (PyDict package) /\
    self' = Cargo.mkCargoFile (Cargo.path self)
              (PyDict (Cargo.update "package"
                         (PyDict (Cargo.update "name" value package)) d)).
Proof.
  unfold Cargo.set_package_name, Cargo.getitem, Cargo.setitem.
  destruct (Cargo.data self) as [| | | | d |] eqn:Hd; try discriminate.
  destruct (lookup "package" d) as [[| | | | package |] |] eqn:Hp;
    try discriminate.
  intros H; injection H as <-. exists d, package.
  refine (conj eq_refl (conj Hp eq_refl)).
Qed.

(** X21: after the [package_name] setter has succeeded, the getter
    returns the value that was set, and nothing else of the manifest has
    changed: the path, [bin_name], every other top-level entry and every
    other entry of the package table are as before. *)
Theorem X21_package_name_set_then_get (self self' : Cargo.CargoFile)
  (value : pyval) :
  Cargo.set_package_name self value = inr self' ->
  Cargo.package_name self' = inr value /\
  Cargo.path self' = Cargo.path self /\
  Cargo.bin_name self' = Cargo.bin_name self /\
  (forall key, key <> "package" ->
     Cargo.getitem (Cargo.data self') key = Cargo.getitem (Cargo.data self) key) /\
  (forall key package package',
     key <> "name" ->
     Cargo.getitem (Cargo.data self) "package" = inr package ->
     Cargo.getitem (Cargo.data self') "package" = inr package' ->
     Cargo.getitem package' key = Cargo.getitem package key).
Proof.
  intros H.
  destruct (set_package_name_inv self self' value H)
    as (d & package & Hd & Hp & ->).
  assert (Hother : forall key, key <> "package" ->
            Cargo.getitem
              (PyDict (Cargo.update "package"
                         (PyDict (Cargo.update "name" value package)) d)) key
            = Cargo.getitem (Cargo.data self) key).
  { intros key Hk. rewrite Hd. unfold Cargo.getitem.
    now rewrite lookup_update_other. }
  refine (conj _ (conj eq_refl (conj _ (conj Hother _)))).
  - unfold Cargo.package_name, Cargo.getitem. cbn [Cargo.data].
    now rewrite !lookup_update_same.
  - unfold Cargo.bin_name. cbn [Cargo.data].
    now rewrite Hother by discriminate.
  - intros key p p' Hk. cbn [Cargo.data]. rewrite Hd.
    unfold Cargo.getitem at 1 2. rewrite Hp, lookup_update_same.
    intros Hp1 Hp2. injection Hp1 as <-. injection Hp2 as <-.
    unfold Cargo.getitem. now rewrite lookup_update_other.
Qed.

Lemma X21_package_name_set_then_get_witness :
  exists self',
    Cargo.set_package_name sample_cargo (PyStr "counter") = inr self' /\
    Cargo.package_name self' = inr (PyStr "counter") /\
    Cargo.bin_name self' = inr (PyStr "adder").
Proof.
  eexists. split; [reflexivity |].
  destruct (X21_package_name_set_then_get sample_cargo _ (PyStr "counter")
              eq_refl) as (H1 & _ & H2 & _).
  split; [exact H1 | exact H2].
Defined.

(** X22: the [package_name] setter never creates what is missing: it
    succeeds exactly when the manifest is a table whose [package] entry
    is a table; without a [package] entry it raises [KeyError], as the
    getter does, and when the entry is no table it raises the
    [TypeError] of a failed item assignment. *)
Theorem X22_package_name_setter_needs_the_table (self : Cargo.CargoFile)
  (value : pyval) :
  ((exists self', Cargo.set_package_name self value = inr self') <->
   (exists package,
       Cargo.getitem (Cargo.data self) "package" = inr (PyDict package))) /\
  (forall d, Cargo.data self = PyDict d -> lookup "package" d = None ->
     Cargo.set_package_name self value = inl (Cargo.KeyError (PyStr "package")) /\
     Cargo.package_name self = inl (Cargo.KeyError (PyStr "package"))) /\
  (forall s, Cargo.getitem (Cargo.data self) "package" = inr (PyStr s) ->
     Cargo.set_package_name self value = inl Cargo.NotSubscriptable).
Proof.
  refine (conj _ (conj _ _)).
  - split.
    + intros [self' H].
      destruct (set_package_name_inv self self' value H)
        as (d & package & Hd & Hp & _).
      exists package. rewrite Hd. unfold Cargo.getitem. now rewrite Hp.
    + intros [package H]. unfold Cargo.set_package_name. rewrite H.
      cbn [Cargo.setitem]. unfold Cargo.getitem in H.
      destruct (Cargo.data self) as [| | | | d |]; try discriminate.
      cbn [Cargo.setitem]. eexists; reflexivity.
  - intros d Hd Hl.
    unfold Cargo.set_package_name, Cargo.package_name, Cargo.getitem.
    rewrite Hd, Hl. split; reflexivity.
  - intros s H. unfold Cargo.set_package_name. rewrite H. reflexivity.
Qed.

Lemma set_bin_name_inv (self self' : Cargo.CargoFile) (value : pyval) :
  Cargo.set_bin_name self value = inr self' ->
  exists d first rest,
    Cargo.data self = PyDict d /\
    lookup "bin" d = Some (PyList (PyDict first :: rest)) /\
    self' = Cargo.mkCargoFile (Cargo.path self)
              (PyDict (Cargo.update "bin"
                         (PyList (PyDict (Cargo.update "name" value first)
                                    :: rest)) d)).
Proof.
  unfold Cargo.set_bin_name, Cargo.getitem, Cargo.getitem0, Cargo.setitem.
  destruct (Cargo.data self) as [| | | | d |] eqn:Hd; try discriminate.
  destruct (lookup "bin" d)
    as [[| [|c s] | | [|[| | | | first |] rest] | |] |] eqn:Hb;
    try discriminate.
  intros H; injection H as <-. exists d, first, rest.
  refine (conj eq_refl (conj Hb eq_refl)).
Qed.

(** X23: after the [bin_name] setter has succeeded, the getter returns
    the value that was set; the path, [package_name] and every other
    top-level entry are as before, and so are the binaries after the
    first one.  The setter succeeds only on a manifest whose [bin] entry
    is an array that starts with a table. *)
Theorem X23_bin_name_set_then_get (self self' : Cargo.CargoFile)
  (value : pyval) :
  Cargo.set_bin_name self value = inr self' ->
  Cargo.bin_name self' = inr value /\
  Cargo.path self' = Cargo.path self /\
  Cargo.package_name self' = Cargo.package_name self /\
  (forall key, key <> "bin" ->
     Cargo.getitem (Cargo.data self') key = Cargo.getitem (Cargo.data self) key) /\
  exists first first' rest,
    Cargo.getitem (Cargo.data self) "bin" = inr (PyList (PyDict first :: rest)) /\
    Cargo.getitem (Cargo.data self') "bin"
    = inr (PyList (PyDict first' :: rest)) /\
    forall key, key <> "name" -> lookup key first' = lookup key first.
Proof.
  intros H.
  destruct (set_bin_name_inv self self' value H)
    as (d & first & rest & Hd & Hb & ->).
  assert (Hother : forall key, key <> "bin" ->
            Cargo.getitem
              (PyDict (Cargo.update "bin"
                         (PyList (PyDict (Cargo.update "name" value first)
                                    :: rest)) d)) key
            = Cargo.getitem (Cargo.data self) key).
  { intros key Hk. rewrite Hd. unfold Cargo.getitem.
    now rewrite lookup_update_other. }
  refine (conj _ (conj eq_refl (conj _ (conj Hother _)))).
  - unfold Cargo.bin_name, Cargo.getitem. cbn [Cargo.data].
    rewrite lookup_update_same. cbn [Cargo.getitem0].
    now rewrite lookup_update_same.
  - unfold Cargo.package_name. cbn [Cargo.data].
    now rewrite Hother by discriminate.
  - exists first, (Cargo.update "name" value first), rest.
    cbn [Cargo.data]. rewrite Hd. unfold Cargo.getitem.
    rewrite Hb, lookup_update_same.
    refine (conj eq_refl (conj eq_refl _)).
    intros key Hk. now apply lookup_update_other.
Qed.

Lemma X23_bin_name_set_then_get_witness :
  exists self',
    Cargo.set_bin_name sample_cargo (PyStr "counter") = inr self' /\
    Cargo.bin_name self' = inr (PyStr "counter") /\
    Cargo.package_name self' = inr (PyStr "adder").
Proof.
  eexists. split; [reflexivity |].
  destruct (X23_bin_name_set_then_get sample_cargo _ (PyStr "counter")
              eq_refl) as (H1 & _ & H2 & _).
  split; [exact H1 | exact H2].
Defined.

(* ================================================================= *)
(** * Finding the projects *)

Section ProjectsProperties.

Variables (path project exception : Type).
Variable guards_is_directory : path -> option exception.
Variables is_source_clang is_source_cpp is_source_sol is_source_rust
  : path -> bool.
Variables ProjectClang ProjectCpp ProjectSol ProjectRust
  : path -> exception + project.
Variable get_subfolders : path -> exception + list string.
Variable str_of_path : path -> string.
Variable join : path -> string -> path.

Let load : path -> Projects.error exception + project :=
  Projects.load_project path project exception guards_is_directory
    is_source_clang is_source_cpp is_source_sol is_source_rust
    ProjectClang ProjectCpp ProjectSol ProjectRust str_of_path.

Let loaded (workspace : path) (folder : string) : list project :=
  match load (join workspace folder) with
  | inr p => [p]
  | inl _ => []
  end.

Lemma collect_projects_flat_map (workspace : path) (subfolders : list string) :
  forall projects,
    Projects.collect_projects path project exception guards_is_directory
      is_source_clang is_source_cpp is_source_sol is_source_rust
      ProjectClang ProjectCpp ProjectSol ProjectRust str_of_path join
      workspace subfolders projects
    = (projects ++ flat_map (loaded workspace) subfolders)%list.
Proof.
  induction subfolders as [|folder rest IH]; intros projects; simpl.
  - now rewrite app_nil_r.
  - unfold loaded at 1. fold load.
    destruct (load (join workspace folder)) as [e | p]; rewrite IH.
    + reflexivity.
    + now rewrite <- app_assoc.
Qed.

(** X24: a sub-folder that is no project never makes
    [get_projects_in_workspace] fail: once the workspace passes the
    guard and its sub-folders are listed, the result is the list of the
    projects of the sub-folders that load, in the order of the folders,
    and every failure to load is passed over. *)
Theorem X24_workspace_projects (workspace : path) (subfolders : list string) :
  guards_is_directory workspace = None ->
  get_subfolders workspace = inr subfolders ->
  exists projects,
    Projects.get_projects_in_workspace path project exception
      guards_is_directory
      is_source_clang is_source_cpp is_source_sol is_source_rust
      ProjectClang ProjectCpp ProjectSol ProjectRust
      get_subfolders str_of_path join workspace
    = inr projects /\
    projects = flat_map (loaded workspace) subfolders /\
    (List.length projects <= List.length subfolders)%nat /\
    forall p, In p projects <->
      exists folder, In folder subfolders /\
                     load (join workspace folder) = inr p.
Proof.
  intros Hg Hs. exists (flat_map (loaded workspace) subfolders).
  split.
  { unfold Projects.get_projects_in_workspace. rewrite Hg, Hs.
    now rewrite collect_projects_flat_map. }
  split; [reflexivity |]. split.
  - clear Hs.
    induction subfolders as [|folder rest IH]; simpl; [lia |].
    rewrite length_app. unfold loaded at 1.
    destruct (load (join workspace folder)); simpl; lia.
  - intros p. rewrite in_flat_map. split.
    + intros (folder & Hin & Hp). exists folder. split; [exact Hin |].
      unfold loaded in Hp.
      destruct (load (join workspace folder)) as [e | p'];
        [contradiction | destruct Hp as [-> | []]; reflexivity].
    + intros (folder & Hin & Hp). exists folder. split; [exact Hin |].
      unfold loaded. rewrite Hp. now left.
Qed.



End ProjectsProperties.

Lemma X24_workspace_projects_witness :
  exists projects,
    sample_get_projects "ws" = inr projects /\
    projects = ["clang:ws/c"; "rust:ws/r"] /\
    (List.length projects <= 4)%nat.
Proof.
  destruct (X24_workspace_projects string string unit
              (fun _ => None)
              (fun d => String.eqb d "ws/c") (fun _ => false) (fun _ => false)
              (fun d => String.eqb d "ws/r" || String.eqb d "ws/broken")
              (fun d => inr ("clang:" ++ d)%string)
              (fun d => inr ("cpp:" ++ d)%string)
              (fun d => inr ("sol:" ++ d)%string)
              (fun d => if String.eqb d "ws/broken" then inl tt
                        else inr ("rust:" ++ d)%string)
              (fun _ => inr ["c"; "docs"; "broken"; "r"])
              (fun d => d)
              (fun d f => (d ++ "/" ++ f)%string)
              "ws" ["c"; "docs"; "broken"; "r"] eq_refl eq_refl)
    as (projects & H1 & H2 & H3 & _).
  exists projects. split; [exact H1 |]. split; [exact H2 | exact H3].
Defined.

